(** * ECHO gateway: a shallow embedding of the request pipeline and the
      WebSocket registry

    The repository holds four revisions of one Express/ws gateway:

    - [GatewayV11]: src/gateway/gateway.js, first program  (version 1.1);
    - [GatewayV14]: src/gateway/gateway.js, second program (version 1.4);
    - [Echo1]:      src/backend/echo (1).js                (version 1.0, secured);
    - [Echo]:       src/backend/echo.js                    (version 1.0, with chat).

    Each revision is embedded in a module of its own, with the names of the
    source.  What the revisions share (JavaScript values, the [Map] object,
    the HTTP client, the event trace) comes first. *)

From Stdlib Require Import ZArith Bool List Ascii.
From stdpp Require Import base option strings pretty gmap.

Set Warnings "-register-all".
Local Open Scope Z_scope.

(** ** JavaScript values *)

Module JS.

(** A value as [JSON.parse] and [jwt.verify] deliver it, plus [undefined].
    A number whose value is an integer is [VNum z] with that integer.  A
    number that is no integer (a fraction, an infinity, [NaN]) is
    [VFloat text], carried with the text that [Number.prototype.toString]
    gives it, which is all that the gateway ever asks of it.  An object is
    the list of its own properties, keys distinct, in insertion order. *)
Inductive value : Type :=
| VUndefined
| VNull
| VBool (b : bool)
| VNum (z : Z)
| VFloat (text : string)
| VStr (s : string)
| VArr (l : list value)
| VObj (fields : list (string * value)).

(** [Number.prototype.toString] on the numbers whose value is an integer.
    JavaScript numbers are doubles: up to [Number.MAX_SAFE_INTEGER] the text
    is the decimal numeral; above, it is the shortest numeral that reads
    back as the same double, in exponent form from [1e21] on.  Only the first
    is fixed here; the rest is whatever the engine prints. *)
Class Numbers : Type := {
  Number_toString : Z -> string;
  Number_toString_safe (z : Z) :
    - 9007199254740991 <= z <= 9007199254740991 ->
    Number_toString z = pretty z
}.

(** ToBoolean: what [if (v)], [!v], [a || b] test. *)
Definition truthy (v : value) : bool :=
  match v with
  | VUndefined | VNull => false
  | VBool b => b
  | VNum z => negb (z =? 0)
  | VFloat text => negb (String.eqb text "NaN")
  | VStr s => negb (String.eqb s "")
  | VArr _ | VObj _ => true
  end.

(** [a || b] *)
Definition or (a b : value) : value := if truthy a then a else b.

(** Own property of an object literal. *)
Fixpoint own (k : string) (fields : list (string * value)) : option value :=
  match fields with
  | [] => None
  | (k', v) :: rest => if String.eqb k k' then Some v else own k rest
  end.

(** [v.k] for the property names the gateway reads ([type], [userId], [id],
    [user_id], [email], [role], [schoolId], [school_id], [receiverId],
    [content], [chatId], [error]): none of them is found on a prototype, so
    the read gives the own property or [undefined]; on [undefined] and [null]
    it throws a TypeError ([None]). *)
Definition get (v : value) (k : string) : option value :=
  match v with
  | VUndefined | VNull => None
  | VObj fields => Some (default VUndefined (own k fields))
  | _ => Some VUndefined
  end.

(** [v?.k] *)
Definition get_opt (v : value) (k : string) : value :=
  default VUndefined (get v k).

Definition join (sep : string) (parts : list string) : string :=
  match parts with
  | [] => ""
  | p :: rest => fold_left (fun acc q => acc +:+ sep +:+ q) rest p
  end.

(** [v.toString()]; [None] is a thrown TypeError.  An array joins the string
    forms of its elements with a comma ([null] and [undefined] give the empty
    string); a plain object gives ["[object Object]"], unless it has an own
    property named [toString], which is not callable. *)
Fixpoint toString `{Numbers} (v : value) : option string :=
  match v with
  | VUndefined | VNull => None
  | VBool b => Some (if b then "true" else "false")
  | VNum z => Some (Number_toString z)
  | VFloat text => Some text
  | VStr s => Some s
  | VArr l =>
      let elt (x : value) : option string :=
        match x with
        | VUndefined | VNull => Some ""
        | _ => toString x
        end in
      join "," <$> (fix each (l : list value) : option (list string) :=
                      match l with
                      | [] => Some []
                      | x :: rest =>
                          match elt x, each rest with
                          | Some s, Some ss => Some (s :: ss)
                          | _, _ => None
                          end
                      end) l
  | VObj fields =>
      match own "toString" fields with
      | Some _ => None
      | None => Some "[object Object]"
      end
  end.

(** An object literal [{k1: v1, ...}]: a later key overrides an earlier one
    and keeps the earlier position. *)
Fixpoint put (k : string) (v : value) (fields : list (string * value))
  : list (string * value) :=
  match fields with
  | [] => [(k, v)]
  | (k', v') :: rest =>
      if String.eqb k k' then (k, v) :: rest else (k', v') :: put k v rest
  end.

(** [JSON.stringify] of an object literal drops the properties whose value is
    [undefined]; the frame is kept as the object that the string encodes. *)
Definition stringify (fields : list (string * value)) : value :=
  VObj (List.filter
          (fun kv => match kv.2 with VUndefined => false | _ => true end)
          fields).

(** A thrown error, with the fields the handlers inspect. *)
Record error : Type := Error {
  name : string;
  message : string;
  code : option string;
  response : option (Z * value)
}.

Definition TypeError : error :=
  Error "TypeError" "Cannot read properties" None None.

(** The outcome of an expression that may throw. *)
Inductive completion (A : Type) : Type :=
| Return (a : A)
| Throw (e : error).
Arguments Return {A} a.
Arguments Throw {A} e.

(** The outcome of [await p]: the promise settles, or it never does. *)
Inductive awaited (A : Type) : Type :=
| Settled (c : completion A)
| Pending.
Arguments Settled {A} c.
Arguments Pending {A}.

Global Instance completion_ret : MRet completion := fun _ a => Return a.
Global Instance completion_bind : MBind completion := fun _ _ f c =>
  match c with
  | Return a => f a
  | Throw e => Throw e
  end.

(** [try { body } catch (error) { handler }] where both branches produce the
    block's result. *)
Definition try_catch {A : Type} (body : completion A) (handler : error -> A)
  : A :=
  match body with
  | Return a => a
  | Throw e => handler e
  end.

(** A property read that may throw. *)
Definition prop (v : value) (k : string) : completion value :=
  match get v k with
  | Some x => Return x
  | None => Throw TypeError
  end.

(** [v.toString()] as an expression that may throw. *)
Definition toString_call `{Numbers} (v : value) : completion string :=
  match toString v with
  | Some s => Return s
  | None => Throw TypeError
  end.

(** [v === 'literal'] *)
Definition is_string (v : value) (lit : string) : bool :=
  match v with
  | VStr s => String.eqb s lit
  | _ => false
  end.

(** [s.startsWith(p)] *)
Definition startsWith (s p : string) : bool := String.prefix p s.

(** [s.split(sep)] for a one-character separator. *)
Fixpoint split_go (sep : ascii) (cur : string) (s : string) : list string :=
  match s with
  | EmptyString => [String.rev cur]
  | String c rest =>
      if Ascii.eqb c sep then String.rev cur :: split_go sep "" rest
      else split_go sep (String c cur) rest
  end.
Definition split (sep : ascii) (s : string) : list string := split_go sep "" s.

(** [s.toLowerCase()] on the ASCII letters; other bytes are kept. *)
Definition lower_char (c : ascii) : ascii :=
  let n := nat_of_ascii c in
  if (Nat.leb 65 n && Nat.leb n 90)%bool then ascii_of_nat (n + 32) else c.
Fixpoint toLowerCase (s : string) : string :=
  match s with
  | EmptyString => EmptyString
  | String c rest => String (lower_char c) (toLowerCase rest)
  end.

(** [list.includes(s)] *)
Definition includes (l : list string) (s : string) : bool :=
  existsb (String.eqb s) l.

End JS.


(** ** The [Map] object

    A JavaScript [Map] keeps its entries in insertion order; [set] on a key
    that is present replaces the value in place, [delete] removes the entry,
    [forEach] and [keys] walk the entries in order. *)

Module JsMap.

Definition t (V : Type) : Type := list (string * V).

Section Operations.
Context {V : Type}.

Definition empty : t V := [].

Fixpoint get (k : string) (m : t V) : option V :=
  match m with
  | [] => None
  | (k', v) :: rest => if String.eqb k k' then Some v else get k rest
  end.

Fixpoint set (k : string) (v : V) (m : t V) : t V :=
  match m with
  | [] => [(k, v)]
  | (k', v') :: rest =>
      if String.eqb k k' then (k, v) :: rest else (k', v') :: set k v rest
  end.

Fixpoint delete (k : string) (m : t V) : t V :=
  match m with
  | [] => []
  | (k', v') :: rest =>
      if String.eqb k k' then rest else (k', v') :: delete k rest
  end.

Definition keys (m : t V) : list string := map fst m.

Definition size (m : t V) : Z := Z.of_nat (length m).

(** The invariant of a [Map]: no key occurs twice. *)
Definition wf (m : t V) : Prop := NoDup (keys m).
End Operations.

End JsMap.

(** ** The platform: Node, Express, axios, ws, jsonwebtoken *)

Module Platform.
Import JS.

(** The library functions the gateway calls and whose results it only
    inspects.  [jwt_verify token secret] is [jwt.verify]: it returns the decoded
    claims or throws (an error named [TokenExpiredError] when the expiry has
    passed, [JsonWebTokenError] otherwise).  [JSON_parse] is [JSON.parse] after
    [data.toString()] and [JSON_stringify] is [JSON.stringify].  [URL_host u]
    is [new URL(u).host].  [default_maxRedirects] is the number of redirects
    that an axios call follows when it is given no [maxRedirects] option (5
    by the documentation of axios, 21 in the follow-redirects package that
    it calls); all that is used of it is that it is not 0. *)
Class Libraries : Type := {
  numbers :: Numbers;
  jwt_verify : value -> string -> completion value;
  JSON_parse : string -> completion value;
  JSON_stringify : value -> string;
  URL_host : string -> string;
  default_maxRedirects : nat;
  default_maxRedirects_pos : default_maxRedirects <> 0%nat
}.

(** [process.env]: every variable that is set holds a string. *)
Definition environment : Type := gmap string string.

(** [process.env.NAME] as a value. *)
Definition env_get (env : environment) (name : string) : value :=
  match env !! name with
  | Some s => VStr s
  | None => VUndefined
  end.

(** The configuration constants a revision computes while it loads. *)
Record config : Type := Config {
  PORT : value;
  PYTHON_BACKEND : string;
  JWT_SECRET : string
}.

(** What loading the program ends in: [process.exit(code)], or the server
    listening with its constants. *)
Inductive startup : Type :=
| Exit (code : Z)
| Listening (c : config).

(** [process.env.PYTHON_BACKEND || 'https://echo-backend.up.railway.app'] *)
Definition backend_of (env : environment) : string :=
  match or (env_get env "PYTHON_BACKEND")
           (VStr "https://echo-backend.up.railway.app") with
  | VStr s => s
  | _ => ""
  end.

(** [process.env.PORT || 3000] *)
Definition port_of (env : environment) : value :=
  or (env_get env "PORT") (VNum 3000).

(** *** Express *)

(** The request as the handlers read it.  [originalUrl] is the request
    target as it came in, [path] is [req.path], the path name that Express
    parsed out of the target, and [query] is the parsed query string: the
    handlers read all three and compute none of them.  [headers] is
    [req.headers], where Node has put every header name in lower case. *)
Record request : Type := Request {
  method : string;
  originalUrl : string;
  path : string;
  headers : gmap string string;
  body : value;
  query : value
}.

(** Express takes [req.path] out of the request target with the parseurl
    package.  A target that starts with a slash and has no fragment and no
    white space (none of the characters 0x09, 0x0a, 0x0c, 0x0d, 0x20, 0x23,
    0xa0) is scanned for its first [?], and the path name is the part before
    it; every other target (absolute form, a fragment) goes to the URL parser
    of Node, which is not modelled. *)
Definition target_char (c : ascii) : bool :=
  negb (existsb (Nat.eqb (nat_of_ascii c)) [9; 10; 12; 13; 32; 35; 160]%nat).

Fixpoint target_chars (url : string) : bool :=
  match url with
  | EmptyString => true
  | String c rest => target_char c && target_chars rest
  end.

Definition simple_target (url : string) : bool :=
  match url with
  | String c rest => Ascii.eqb c "/" && target_chars rest
  | EmptyString => false
  end.

Fixpoint pathname (url : string) : string :=
  match url with
  | EmptyString => EmptyString
  | String c rest =>
      if Ascii.eqb c "?" then EmptyString else String c (pathname rest)
  end.


(** A route of Express 4 whose pattern has no parameter, against [req.path]:
    letter case is ignored, one trailing slash is optional, and a [*] at the
    end of the pattern stands for any rest. *)
Fixpoint before_star (pattern : string) : string * bool :=
  match pattern with
  | EmptyString => (EmptyString, false)
  | String c rest =>
      if Ascii.eqb c "*" then (EmptyString, true)
      else let '(p, star) := before_star rest in (String c p, star)
  end.

Definition route_matches (pattern path : string) : bool :=
  let '(p, star) := before_star (toLowerCase pattern) in
  if star then startsWith (toLowerCase path) p
  else String.eqb (toLowerCase path) p
       || String.eqb (toLowerCase path) (p +:+ "/").

(** The request object handed to axios. *)
Record outbound : Type := Outbound {
  out_method : string;
  out_url : string;
  out_data : value;
  out_params : value;
  out_headers : gmap string value
}.

(** What a handler does that the outside can see, in order:
    the call to the upstream and [res.status(s).json(b)]. *)
Inductive event : Type :=
| Forward (o : outbound)
| Reply (status : Z) (json : value).

(** The replies of a trace and its upstream calls. *)
Definition replies (tr : list event) : list (Z * value) :=
  omap (fun e => match e with Reply s b => Some (s, b) | _ => None end) tr.
Definition forwards (tr : list event) : list outbound :=
  omap (fun e => match e with Forward o => Some o | _ => None end) tr.

(** Did the handler call the upstream? *)
Definition forwarded (tr : list event) : bool :=
  match forwards tr with
  | [] => false
  | _ :: _ => true
  end.

(** The values of one header in the upstream calls of a trace. *)
Definition sent_header (name : string) (tr : list event)
  : list (option value) :=
  (fun o => out_headers o !! name) <$> forwards tr.

(** Does the request carry [Authorization: Bearer ...]? *)
Definition has_bearer (req : request) : bool :=
  match headers req !! "authorization" with
  | Some h => startsWith h "Bearer "
  | None => false
  end.

(** What the middleware [authenticate(req, res, next)] ends in: it calls
    [next()] with [req.user] as it then stands, or it answers itself. *)
Inductive verdict : Type :=
| Next (user : value)
| Answer (status : Z) (json : value).

(** *** axios *)

(** What the transport under axios ends a call with, once the redirects
    that the client follows are behind it ([deliver] below): a response that
    arrives after some milliseconds, nothing at all, or a failure with a
    system error code ([ECONNREFUSED], [ENOTFOUND], [ECONNRESET], ...).
    [data] is [response.data], the body after [transformResponse]. *)
Inductive upstream : Type :=
| Responds (after : Z) (status : Z) (data : value)
| Silent
| Unreachable (errno : string) (text : string).

(** How the backend behaves on a call: it ends the call as above, or it
    answers with a [Location] header, and [next] is how the server named
    there behaves on the follow-up request. *)
Inductive backend : Type :=
| Direct (up : upstream)
| Moved (after : Z) (status : Z) (data : value) (next : backend).

(** The request options that decide how a call settles.  [timeout] is in
    milliseconds and [0] means none (the axios default); [maxRedirects] is
    the option of that name, when it is given. *)
Record client : Type := Client {
  timeout : Z;
  maxRedirects : option nat;
  validateStatus : Z -> bool
}.

(** The axios default: [status >= 200 && status < 300]. *)
Definition default_validateStatus (status : Z) : bool :=
  (200 <=? status) && (status <? 300).

Definition timed_out (c : client) : error :=
  Error "AxiosError" ("timeout of " +:+ pretty (timeout c) +:+ "ms exceeded")
    (Some "ECONNABORTED") None.

Definition bad_status (status : Z) (data : value) : error :=
  Error "AxiosError" ("Request failed with status code " +:+ pretty status)
    (Some (if status <? 500 then "ERR_BAD_REQUEST" else "ERR_BAD_RESPONSE"))
    (Some (status, data)).

(** Did the answer arrive before the timer fired? *)
Definition in_time (c : client) (after : Z) : bool :=
  (timeout c <=? 0) || (after <? timeout c).

(** How an axios call settles, given what the transport ends it with: the
    promise resolves with the response when it arrives in time and
    [validateStatus] accepts it, rejects with the response attached when it
    does not, rejects with code [ECONNABORTED] when the timer fires first,
    rejects with the system code on a transport failure, and stays pending
    when nothing ever happens and no timer is set. *)
Definition axios (c : client) (up : upstream) : awaited (Z * value) :=
  match up with
  | Responds after status data =>
      if in_time c after then
        if (status =? 0) || validateStatus c status
        then Settled (Return (status, data))
        else Settled (Throw (bad_status status data))
      else Settled (Throw (timed_out c))
  | Silent =>
      if timeout c <=? 0 then Pending else Settled (Throw (timed_out c))
  | Unreachable errno text =>
      Settled (Throw (Error "Error" text (Some errno) None))
  end.

(** The redirects that axios follows (the follow-redirects package): an
    answer with a [Location] header and a status from 300 to 399 is not
    handed over; the request goes to the new location, and the answer there
    is treated the same way.  One redirect more than [budget] ends the call
    with the error [ERR_FR_TOO_MANY_REDIRECTS]. *)
Fixpoint follow (budget : nat) (elapsed : Z) (b : backend) {struct b}
  : upstream :=
  match b with
  | Direct (Responds after status data) =>
      Responds (elapsed + after) status data
  | Direct up => up
  | Moved after status data next =>
      if (status <? 300) || (400 <=? status)
      then Responds (elapsed + after) status data
      else
        match budget with
        | O => Unreachable "ERR_FR_TOO_MANY_REDIRECTS"
                 "Maximum number of redirects exceeded"
        | S budget' => follow budget' (elapsed + after) next
        end
  end.

(** What the transport hands to a client: with [maxRedirects: 0] every
    answer as it comes, a redirect included; otherwise the end of the
    chain. *)
Definition deliver `{Libraries} (c : client) (b : backend) : upstream :=
  match maxRedirects c with
  | Some O =>
      match b with
      | Direct up => up
      | Moved after status data _ => Responds after status data
      end
  | Some n => follow n 0 b
  | None => follow default_maxRedirects 0 b
  end.




(** *** ws *)

(** A socket object; two sockets are the same object iff the numbers agree. *)
Definition socket : Type := nat.

Inductive ws_event : Type :=
| Send (ws : socket) (frame : value)
| Close (ws : socket) (code : Z) (reason : string).

(** [activeConnections] *)
Definition registry : Type := JsMap.t socket.

(** The listeners a connection handler leaves on the socket.  A [message]
    listener gets the frame's text and the clock; a [close] listener gets the
    clock and updates the registry. *)
Record listeners : Type := Listeners {
  on_message : option (string -> string -> registry -> list ws_event);
  on_close : option (string -> registry -> registry * list ws_event)
}.

Definition no_listeners : listeners := Listeners None None.

(** [ws.emit('message', data)]: an event without a listener does nothing. *)
Definition emit_message (l : listeners) (data now : string) (reg : registry)
  : list ws_event :=
  match on_message l with
  | Some f => f data now reg
  | None => []
  end.

(** [ws.emit('close')] *)
Definition emit_close (l : listeners) (now : string) (reg : registry)
  : registry * list ws_event :=
  match on_close l with
  | Some f => f now reg
  | None => (reg, [])
  end.

(** *** Notions of the specification *)

(** The identity's id as the specification words it: the candidate fields are
    tried in a fixed order and the first non-empty one wins. *)
Definition resolve_id (decoded : value) (order : list string) : option value :=
  List.find truthy (get_opt decoded <$> order).

(** The upstream does not answer within [ms] milliseconds. *)
Definition unanswered_within (ms : Z) (up : upstream) : bool :=
  match up with
  | Responds after _ _ => ms <=? after
  | Silent => true
  | Unreachable _ _ => false
  end.

(** The probe of the health route cannot reach the upstream: no answer in
    time, or a transport failure. *)
Definition unreachable_within (ms : Z) (up : upstream) : bool :=
  match up with
  | Responds after _ _ => ms <=? after
  | Silent => true
  | Unreachable _ _ => true
  end.



(** The connection handler closed the socket: the session did not open. *)
Definition closes (ws : socket) (evs : list ws_event) : bool :=
  existsb (fun e => match e with
                    | Close w _ _ => Nat.eqb w ws
                    | Send _ _ => false
                    end) evs.

(** The life of the registry under a connection handler [connect]: sockets
    connect one after the other, and a socket that connected closes at some
    later point, which runs the listeners its handler left on it. *)
Section Runs.
Variable connect :
  socket -> value -> string -> registry -> registry * list ws_event * listeners.

Inductive run : registry -> list listeners -> Prop :=
| run_start : run [] []
| run_connect reg ls ws token now :
    run reg ls ->
    run (connect ws token now reg).1.1 ((connect ws token now reg).2 :: ls)
| run_close reg ls l now :
    run reg ls -> In l ls -> run (emit_close l now reg).1 ls.

(** Every connection either is refused, and leaves the registry and the
    socket's listeners alone, or opens a session: then the socket is stored
    under one key, and the close listener deletes that same key. *)
Definition one_key_per_session : Prop :=
  forall ws token now reg,
    (connect ws token now reg).1.1 = reg
    /\ (connect ws token now reg).2 = no_listeners
    /\ closes ws (connect ws token now reg).1.2 = true
    \/ exists key,
         (connect ws token now reg).1.1 = JsMap.set key ws reg
         /\ closes ws (connect ws token now reg).1.2 = false
         /\ forall now' r,
              (emit_close (connect ws token now reg).2 now' r).1
                = JsMap.delete key r.
End Runs.

End Platform.

(** ** gateway.js, version 1.1 (the first program of src/gateway/gateway.js) *)

Module GatewayV11.
Import JS Platform.

(** Lines 15-24: the secret comes from the environment and the process exits
    with code 1 when it is not set. *)
Definition load (env : environment) : startup :=
  let PORT := port_of env in
  let PYTHON_BACKEND := backend_of env in
  let JWT_SECRET := env_get env "JWT_SECRET" in
  if negb (truthy JWT_SECRET) then Exit 1
  else Listening (Config PORT PYTHON_BACKEND
                    (match JWT_SECRET with VStr s => s | _ => "" end)).

Definition publicPaths : list string :=
  ["/auth/login"; "/auth/register"; "/health"; "/"].

(** Line 47: [publicPaths.includes(requestPath)] with [requestPath = req.path]. *)
Definition public_route (requestPath : string) : bool :=
  includes publicPaths requestPath.

Definition no_token : verdict :=
  Answer 401 (VObj [("success", VBool false);
                    ("error", VStr "Access denied. No token provided.");
                    ("code", VStr "NO_TOKEN")]).

(** Lines 215-230: the routes whose handler is [createProxyHandler(true)].
    The other routes (lines 211-212, 235-330) do not call [authenticate], so
    it runs on the requests whose path one of these patterns matches. *)
Definition guarded_routes : list string :=
  ["/schools/join"; "/schools/create-and-join"; "/api/schools*";
   "/api/classes*"; "/api/teachers*"; "/api/students*"; "/api/subjects*";
   "/api/grades*"; "/api/reports*"; "/api/payments*"; "/api/users*";
   "/api/*"].

Definition reaches_authenticate (requestPath : string) : bool :=
  existsb (fun pattern => route_matches pattern requestPath) guarded_routes.

Section WithLibraries.
Context `{Libraries}.
Variable cfg : config.

(** Lines 42-94. *)
Definition authenticate (req : request) : verdict :=
  let requestPath := path req in
  if public_route requestPath then Next VUndefined
  else
    let authHeader := headers req !! "authorization" in
    match authHeader with
    | None => no_token
    | Some authHeader =>
        if negb (truthy (VStr authHeader))
           || negb (startsWith authHeader "Bearer ")
        then no_token
        else
          let token :=
            default VUndefined (VStr <$> split " " authHeader !! 1%nat) in
          try_catch
            (decoded ← jwt_verify token (JWT_SECRET cfg);
             userId ← prop decoded "userId";
             id ← prop decoded "id";
             user_id ← prop decoded "user_id";
             if negb (truthy userId) && negb (truthy id)
                && negb (truthy user_id)
             then
               mret (Answer 401
                       (VObj [("success", VBool false);
                              ("error", VStr "Invalid token format");
                              ("code", VStr "INVALID_TOKEN")]))
             else
               email ← prop decoded "email";
               role ← prop decoded "role";
               schoolId ← prop decoded "schoolId";
               mret (Next (VObj [("id", or (or userId id) user_id);
                                 ("email", email);
                                 ("role", role);
                                 ("schoolId", schoolId)])))
            (fun error =>
               let isExpired := String.eqb (name error) "TokenExpiredError" in
               let message :=
                 if isExpired then "Token expired. Please login again."
                 else "Invalid token." in
               let code := if isExpired then "TOKEN_EXPIRED"
                           else "INVALID_TOKEN" in
               Answer 401 (VObj [("success", VBool false);
                                 ("error", VStr message);
                                 ("code", VStr code)]))
    end.

(** Lines 129-131 and 133-136: the frames of the message listener. *)
Definition pong (now : string) : value :=
  stringify [("type", VStr "pong"); ("timestamp", VStr now)].
Definition invalid_message : value :=
  stringify [("type", VStr "error");
             ("error", VStr "Invalid message format")].

(** Lines 124-138: [ws.on('message', ...)]. *)
Definition message_listener (ws : socket) (userId : value)
    (data now : string) (reg : registry) : list ws_event :=
  try_catch
    (message ← JSON_parse data;
     type ← prop message "type";
     if is_string type "ping" then mret [Send ws (pong now)]
     else mret [])
    (fun error => [Send ws invalid_message]).

(** Lines 140-143: [ws.on('close', ...)]. *)
Definition close_listener (userId : value) (now : string) (reg : registry)
  : registry * list ws_event :=
  match toString userId with
  | Some key => (JsMap.delete key reg, [])
  | None => (reg, [])
  end.

(** Lines 102-149: [wss.on('connection', ...)]; [token] is
    [url.query.token]. *)
Definition connection (ws : socket) (token : value) (reg : registry)
  : registry * list ws_event * listeners :=
  try_catch
    (if negb (truthy token)
     then mret (reg, [Close ws 1008 "No token"], no_listeners)
     else
       decoded ← jwt_verify token (JWT_SECRET cfg);
       a ← prop decoded "userId";
       b ← prop decoded "id";
       c ← prop decoded "user_id";
       let userId := or (or a b) c in
       if negb (truthy userId)
       then mret (reg, [Close ws 1008 "Invalid token"], no_listeners)
       else
         key ← toString_call userId;
         mret (JsMap.set key ws reg, [],
               Listeners (Some (message_listener ws userId))
                         (Some (close_listener userId))))
    (fun error => (reg, [Close ws 1008 "Auth failed"], no_listeners)).

(** Lines 176-189: the axios request of [proxyRequest]. *)
Definition proxy_call (req : request) (user : value) : outbound :=
  let targetURL := PYTHON_BACKEND cfg +:+ originalUrl req in
  Outbound (method req) targetURL (body req) (query req)
    (<["host" := VStr (URL_host (PYTHON_BACKEND cfg))]>
       (<["x-forwarded-by" := VStr "echo-gateway"]>
          (<["x-user-role" := get_opt user "role"]>
             (<["x-user-id" := get_opt user "id"]>
                (VStr <$> headers req))))).

(** No [timeout] and no [maxRedirects] option is given;
    [validateStatus: () => true]. *)
Definition proxy_client : client := Client 0 None (fun _ => true).

(** Lines 172-204. *)
Definition proxyRequest (req : request) (user : value) (up : upstream)
  : list event :=
  Forward (proxy_call req user) ::
  match axios proxy_client up with
  | Settled (Return (status, data)) => [Reply status data]
  | Settled (Throw error) =>
      [Reply 502 (VObj [("success", VBool false);
                        ("error", VStr "Backend service unavailable");
                        ("code", VStr "BACKEND_ERROR");
                        ("path", VStr (originalUrl req))])]
  | Pending => []
  end.

(** Lines 154-169. *)
Definition createProxyHandler (requiresAuth : bool) (req : request)
    (up : upstream) : list event :=
  if requiresAuth then
    match authenticate req with
    | Next user => proxyRequest req user up
    | Answer status json => [Reply status json]
    end
  else proxyRequest req VUndefined up.

(** The probe of the health route: [axios.get(url, { timeout: 3000 })]. *)
Definition health_client : client := Client 3000 None default_validateStatus.

(** Lines 235-258: [app.get('/health', ...)]. *)
Definition health (now : string) (clients : Z) (NODE_ENV : value)
    (up : upstream) : list event :=
  let healthData :=
    [("success", VBool true);
     ("service", VStr "Echo Gateway");
     ("status", VStr "healthy");
     ("timestamp", VStr now);
     ("websocket", VNum clients);
     ("environment", or NODE_ENV (VStr "development"));
     ("backend", VStr "checking")] in
  match axios health_client up with
  | Settled (Return _) =>
      [Reply 200 (VObj (put "backend" (VStr "connected") healthData))]
  | Settled (Throw error) =>
      [Reply 200
         (VObj (put "backendError" (VStr (message error))
                  (put "status" (VStr "degraded")
                     (put "backend" (VStr "disconnected") healthData))))]
  | Pending => []
  end.
End WithLibraries.

End GatewayV11.

(** ** gateway.js, version 1.4 (the second program of src/gateway/gateway.js) *)

Module GatewayV14.
Import JS Platform.

(** Lines 351-360 of the file: as in version 1.1. *)
Definition load (env : environment) : startup :=
  let PORT := port_of env in
  let PYTHON_BACKEND := backend_of env in
  let JWT_SECRET := env_get env "JWT_SECRET" in
  if negb (truthy JWT_SECRET) then Exit 1
  else Listening (Config PORT PYTHON_BACKEND
                    (match JWT_SECRET with VStr s => s | _ => "" end)).

(** Lines 365-381: [axios.create({ timeout: 10000, maxRedirects: 0, ... })];
    every request adds [validateStatus: () => true]. *)
Definition axiosInstance : client := Client 10000 (Some 0%nat) (fun _ => true).

Definition publicPaths : list string :=
  ["/login"; "/register"; "/health"; "/"].

(** Lines 415-419: [requestPath = req.path.toLowerCase()], then
    [publicPaths.includes(requestPath) || requestPath.startsWith('/health')]. *)
Definition public_route (path : string) : bool :=
  let requestPath := toLowerCase path in
  includes publicPaths requestPath || startsWith requestPath "/health".

Definition no_token : verdict :=
  Answer 401 (VObj [("success", VBool false);
                    ("error", VStr "Access denied. No token provided.");
                    ("code", VStr "NO_TOKEN")]).

Section WithLibraries.
Context `{Libraries}.
Variable cfg : config.

(** Lines 413-455. *)
Definition authenticate (req : request) : verdict :=
  if public_route (path req) then Next VUndefined
  else
    let authHeader := headers req !! "authorization" in
    match authHeader with
    | None => no_token
    | Some authHeader =>
        if negb (truthy (VStr authHeader))
           || negb (startsWith authHeader "Bearer ")
        then no_token
        else
          let token :=
            default VUndefined (VStr <$> split " " authHeader !! 1%nat) in
          try_catch
            (decoded ← jwt_verify token (JWT_SECRET cfg);
             user_id ← prop decoded "user_id";
             userId ← prop decoded "userId";
             id ← prop decoded "id";
             email ← prop decoded "email";
             role ← prop decoded "role";
             school_id ← prop decoded "school_id";
             schoolId ← prop decoded "schoolId";
             mret (Next (VObj [("id", or (or user_id userId) id);
                               ("email", email);
                               ("role", role);
                               ("schoolId", or school_id schoolId)])))
            (fun error =>
               let isExpired := String.eqb (name error) "TokenExpiredError" in
               Answer 401
                 (VObj [("success", VBool false);
                        ("error",
                         VStr (if isExpired
                               then "Token expired. Please login again."
                               else "Invalid token."));
                        ("code",
                         VStr (if isExpired then "TOKEN_EXPIRED"
                               else "INVALID_TOKEN"))]))
    end.

Definition pong (now : string) : value :=
  stringify [("type", VStr "pong"); ("timestamp", VStr now)].
Definition invalid_message : value :=
  stringify [("type", VStr "error");
             ("error", VStr "Invalid message format")].

(** Lines 486-501. *)
Definition message_listener (ws : socket) (userId : value)
    (data now : string) (reg : registry) : list ws_event :=
  try_catch
    (message ← JSON_parse data;
     type ← prop message "type";
     if is_string type "ping" then mret [Send ws (pong now)]
     else mret [])
    (fun error => [Send ws invalid_message]).

(** Lines 503-508. *)
Definition close_listener (userId : value) (now : string) (reg : registry)
  : registry * list ws_event :=
  match toString userId with
  | Some key => (JsMap.delete key reg, [])
  | None => (reg, [])
  end.

(** Lines 463-513. *)
Definition connection (ws : socket) (token : value) (reg : registry)
  : registry * list ws_event * listeners :=
  try_catch
    (if negb (truthy token)
     then mret (reg, [Close ws 1008 "No token"], no_listeners)
     else
       decoded ← jwt_verify token (JWT_SECRET cfg);
       a ← prop decoded "user_id";
       b ← prop decoded "userId";
       c ← prop decoded "id";
       let userId := or (or a b) c in
       if negb (truthy userId)
       then mret (reg, [Close ws 1008 "Invalid token"], no_listeners)
       else
         key ← toString_call userId;
         mret (JsMap.set key ws reg, [],
               Listeners (Some (message_listener ws userId))
                         (Some (close_listener userId))))
    (fun error => (reg, [Close ws 1008 "Auth failed"], no_listeners)).

(** Lines 537-552: the request given to [axiosInstance]. *)
Definition proxy_call (req : request) (user : value) (startTime : Z)
  : outbound :=
  Outbound (method req) (originalUrl req) (body req) (query req)
    (<["connection" := VStr "close"]>
       (<["host" := VStr (URL_host (PYTHON_BACKEND cfg))]>
          (<["x-request-start-time" := VStr (Number_toString startTime)]>
             (<["x-forwarded-by" := VStr "echo-gateway-optimized"]>
                (<["x-user-role" := or (get_opt user "role") (VStr "")]>
                   (<["x-user-id" := or (get_opt user "id") (VStr "")]>
                      (VStr <$> headers req))))))).

(** Lines 533-592; [startTime] and [endTime] are the two readings of
    [Date.now()]. *)
Definition handleProxyRequest (req : request) (user : value)
    (startTime endTime : Z) (up : upstream) : list event :=
  Forward (proxy_call req user startTime) ::
  match axios axiosInstance up with
  | Settled (Return (status, data)) => [Reply status data]
  | Settled (Throw error) =>
      let duration := endTime - startTime in
      if bool_decide (code error = Some "ECONNABORTED") then
        [Reply 504 (VObj [("success", VBool false);
                          ("error", VStr "Backend timeout");
                          ("code", VStr "BACKEND_TIMEOUT");
                          ("path", VStr (originalUrl req))])]
      else
        match response error with
        | Some (status, data) => [Reply status data]
        | None =>
            [Reply 502 (VObj [("success", VBool false);
                              ("error", VStr "Backend service unavailable");
                              ("code", VStr "BACKEND_ERROR");
                              ("path", VStr (originalUrl req));
                              ("duration", VNum duration)])]
        end
  | Pending => []
  end.

(** Lines 518-530. *)
Definition createProxyHandler (requiresAuth : bool) (req : request)
    (startTime endTime : Z) (up : upstream) : list event :=
  if requiresAuth then
    match authenticate req with
    | Next user => handleProxyRequest req user startTime endTime up
    | Answer status json => [Reply status json]
    end
  else handleProxyRequest req VUndefined startTime endTime up.

Definition health_client : client := Client 3000 None default_validateStatus.

(** Lines 630-662: [app.get('/health', ...)]. *)
Definition health (now : string) (startTime endTime : Z)
    (clients : Z) (reg : registry) (uptime : value) (up : upstream)
  : list event :=
  let healthData :=
    [("success", VBool true);
     ("service", VStr "Echo Gateway - Optimized v1.4");
     ("status", VStr "healthy");
     ("timestamp", VStr now);
     ("performance",
      VObj [("websocket", VNum clients);
            ("active_connections", VNum (JsMap.size reg));
            ("uptime", uptime)]);
     ("backend", VStr "checking");
     ("gateway_response_time", VNum 0)] in
  match axios health_client up with
  | Settled (Return (_, data)) =>
      [Reply 200
         (VObj (put "gateway_response_time" (VNum (endTime - startTime))
                  (put "backend_details" data
                     (put "backend" (VStr "connected") healthData))))]
  | Settled (Throw error) =>
      [Reply 200
         (VObj (put "gateway_response_time" (VNum (endTime - startTime))
                  (put "backend_error" (VStr (message error))
                     (put "status" (VStr "degraded")
                        (put "backend" (VStr "disconnected")
                           healthData)))))]
  | Pending => []
  end.
End WithLibraries.

End GatewayV14.

(** ** echo (1).js, version 1.0 *)

Module Echo1.
Import JS Platform.

(** Lines 15-24. *)
Definition load (env : environment) : startup :=
  let PORT := port_of env in
  let PYTHON_BACKEND := backend_of env in
  let JWT_SECRET := env_get env "JWT_SECRET" in
  if negb (truthy JWT_SECRET) then Exit 1
  else Listening (Config PORT PYTHON_BACKEND
                    (match JWT_SECRET with VStr s => s | _ => "" end)).

Definition publicPaths : list string :=
  ["/auth/login"; "/auth/register"; "/health"; "/"].

(** Line 44: [publicPaths.includes(req.path)]. *)
Definition public_route (path : string) : bool := includes publicPaths path.

Definition no_token : verdict :=
  Answer 401 (VObj [("success", VBool false);
                    ("error", VStr "Access denied. No token provided.");
                    ("code", VStr "NO_TOKEN")]).

Section WithLibraries.
Context `{Libraries}.
Variable cfg : config.

(** Lines 42-91. *)
Definition authenticate (req : request) : verdict :=
  if public_route (path req) then Next VUndefined
  else
    let authHeader := headers req !! "authorization" in
    match authHeader with
    | None => no_token
    | Some authHeader =>
        if negb (truthy (VStr authHeader))
           || negb (startsWith authHeader "Bearer ")
        then no_token
        else
          let token :=
            default VUndefined (VStr <$> split " " authHeader !! 1%nat) in
          try_catch
            (decoded ← jwt_verify token (JWT_SECRET cfg);
             userId ← prop decoded "userId";
             id ← prop decoded "id";
             user_id ← prop decoded "user_id";
             if negb (truthy userId) && negb (truthy id)
                && negb (truthy user_id)
             then
               mret (Answer 401
                       (VObj [("success", VBool false);
                              ("error", VStr "Invalid token format");
                              ("code", VStr "INVALID_TOKEN")]))
             else
               email ← prop decoded "email";
               role ← prop decoded "role";
               schoolId ← prop decoded "schoolId";
               mret (Next (VObj [("id", or (or userId id) user_id);
                                 ("email", email);
                                 ("role", role);
                                 ("schoolId", schoolId)])))
            (fun error =>
               let isExpired := String.eqb (name error) "TokenExpiredError" in
               let message :=
                 if isExpired then "Token expired. Please login again."
                 else "Invalid token." in
               let code := if isExpired then "TOKEN_EXPIRED"
                           else "INVALID_TOKEN" in
               Answer 401 (VObj [("success", VBool false);
                                 ("error", VStr message);
                                 ("code", VStr code)]))
    end.

(** Lines 120-123. *)
Definition close_listener (userId : value) (now : string) (reg : registry)
  : registry * list ws_event :=
  match toString userId with
  | Some key => (JsMap.delete key reg, [])
  | None => (reg, [])
  end.

(** Lines 99-128: [wss.on('connection', ...)]; [token] is
    [url.searchParams.get('token')].  The handler registers a [close]
    listener and no [message] listener. *)
Definition connection (ws : socket) (token : value) (reg : registry)
  : registry * list ws_event * listeners :=
  if negb (truthy token)
  then (reg, [Close ws 1008 "No token"], no_listeners)
  else
    try_catch
      (decoded ← jwt_verify token (JWT_SECRET cfg);
       a ← prop decoded "userId";
       b ← prop decoded "id";
       c ← prop decoded "user_id";
       let userId := or (or a b) c in
       if negb (truthy userId)
       then mret (reg, [Close ws 1008 "Invalid token"], no_listeners)
       else
         key ← toString_call userId;
         mret (JsMap.set key ws reg, [],
               Listeners None (Some (close_listener userId))))
      (fun error => (reg, [Close ws 1008 "Auth failed"], no_listeners)).

(** Lines 146-159. *)
Definition proxy_call (req : request) (user : value) : outbound :=
  let targetURL := PYTHON_BACKEND cfg +:+ originalUrl req in
  Outbound (method req) targetURL (body req) (query req)
    (<["host" := VStr (URL_host (PYTHON_BACKEND cfg))]>
       (<["x-forwarded-by" := VStr "echo-gateway"]>
          (<["x-user-role" := get_opt user "role"]>
             (<["x-user-id" := get_opt user "id"]>
                (VStr <$> headers req))))).

Definition proxy_client : client := Client 0 None (fun _ => true).

(** Lines 133-178.  When [authenticate] answers by itself the promise the
    handler awaits is never resolved, and the handler goes no further. *)
Definition createProxyHandler (requiresAuth : bool) (req : request)
    (up : upstream) : list event :=
  let proxy (user : value) : list event :=
    Forward (proxy_call req user) ::
    match axios proxy_client up with
    | Settled (Return (status, data)) => [Reply status data]
    | Settled (Throw error) =>
        let status :=
          or (match response error with
              | Some (s, _) => VNum s
              | None => VUndefined
              end) (VNum 502) in
        let message :=
          or (match response error with
              | Some (_, d) => get_opt d "error"
              | None => VUndefined
              end) (VStr "Backend service unavailable") in
        [Reply (match status with VNum s => s | _ => 502 end)
           (VObj [("success", VBool false);
                  ("error", message);
                  ("code", VStr "BACKEND_ERROR");
                  ("path", VStr (originalUrl req))])]
    | Pending => []
    end in
  if requiresAuth then
    match authenticate req with
    | Next user => proxy user
    | Answer status json => [Reply status json]
    end
  else proxy VUndefined.

Definition health_client : client := Client 5000 None default_validateStatus.

(** Lines 204-227: [app.get('/health', ...)]. *)
Definition health (now : string) (clients : Z) (NODE_ENV : value)
    (up : upstream) : list event :=
  match axios health_client up with
  | Settled (Return _) =>
      [Reply 200
         (VObj [("success", VBool true);
                ("service", VStr "Echo Gateway");
                ("status", VStr "healthy");
                ("timestamp", VStr now);
                ("backend", VStr "connected");
                ("websocket", VNum clients);
                ("environment", or NODE_ENV (VStr "development"))])]
  | Settled (Throw error) =>
      [Reply 503
         (VObj [("success", VBool false);
                ("service", VStr "Echo Gateway");
                ("status", VStr "degraded");
                ("error", VStr "Backend unreachable");
                ("backend", VStr (PYTHON_BACKEND cfg))])]
  | Pending => []
  end.
End WithLibraries.

End Echo1.

(** ** echo.js, version 1.0 with the chat relay *)

Module Echo.
Import JS Platform.

(** Lines 17-19: the secret falls back to a literal. *)
Definition load (env : environment) : startup :=
  let PORT := port_of env in
  let JWT_SECRET :=
    or (env_get env "JWT_SECRET")
       (VStr "echo-secret-key-change-in-production") in
  let PYTHON_BACKEND := backend_of env in
  Listening (Config PORT PYTHON_BACKEND
               (match JWT_SECRET with VStr s => s | _ => "" end)).

(** Lines 53-54. *)
Definition public_route (path : string) : bool :=
  String.eqb path "/auth/login" || String.eqb path "/auth/register"
  || String.eqb path "/users/login" || String.eqb path "/users/register".

Definition no_token : verdict :=
  Answer 401 (VObj [("success", VBool false);
                    ("error", VStr "Access denied. No token provided.");
                    ("code", VStr "NO_TOKEN")]).

Section WithLibraries.
Context `{Libraries}.
Variable cfg : config.

(** Lines 51-106. *)
Definition authenticate (req : request) : verdict :=
  if public_route (path req) then Next VUndefined
  else
    let authHeader := headers req !! "authorization" in
    match authHeader with
    | None => no_token
    | Some authHeader =>
        if negb (truthy (VStr authHeader))
           || negb (startsWith authHeader "Bearer ")
        then no_token
        else
          let token :=
            default VUndefined (VStr <$> split " " authHeader !! 1%nat) in
          try_catch
            (decoded ← jwt_verify token (JWT_SECRET cfg);
             userId ← prop decoded "userId";
             id ← prop decoded "id";
             user_id ← prop decoded "user_id";
             if negb (truthy userId) && negb (truthy id)
                && negb (truthy user_id)
             then
               mret (Answer 401
                       (VObj [("success", VBool false);
                              ("error",
                               VStr "Invalid token: missing user identification");
                              ("code", VStr "INVALID_TOKEN_FORMAT")]))
             else
               email ← prop decoded "email";
               role ← prop decoded "role";
               mret (Next (VObj [("userId", or (or userId id) user_id);
                                 ("email", email);
                                 ("role", role)])))
            (fun error =>
               let '(errorMessage, errorCode) :=
                 if String.eqb (name error) "TokenExpiredError"
                 then ("Token has expired", "TOKEN_EXPIRED")
                 else if String.eqb (name error) "JsonWebTokenError"
                 then ("Malformed token", "MALFORMED_TOKEN")
                 else ("Invalid token", "INVALID_TOKEN") in
               Answer 401 (VObj [("success", VBool false);
                                 ("error", VStr errorMessage);
                                 ("code", VStr errorCode)]))
    end.

(** Lines 209-220. *)
Definition broadcastOnlineUsers (now : string) (reg : registry)
  : list ws_event :=
  let onlineUsers := VArr (VStr <$> JsMap.keys reg) in
  let message :=
    stringify [("type", VStr "online_users");
               ("users", onlineUsers);
               ("timestamp", VStr now)] in
  (fun entry : string * socket => Send entry.2 message) <$> reg.

(** Lines 186-207.  The destructuring of [message] is outside the [try];
    what the [try] catches is logged and nothing else. *)
Definition handleChatMessage (senderId message : value) (now : string)
    (reg : registry) : completion (list ws_event) :=
  type ← prop message "type";
  receiverId ← prop message "receiverId";
  content ← prop message "content";
  chatId ← prop message "chatId";
  mret (try_catch
          (if is_string type "private" && truthy receiverId then
             key ← toString_call receiverId;
             match JsMap.get key reg with
             | Some receiverWs =>
                 mret [Send receiverWs
                         (stringify [("type", VStr "message");
                                     ("senderId", senderId);
                                     ("content", content);
                                     ("timestamp", VStr now)])]
             | None => mret []
             end
           else mret [])
          (fun error => [])).

Definition invalid_message : value :=
  stringify [("type", VStr "error");
             ("error", VStr "Invalid message format")].

(** Lines 161-171. *)
Definition message_listener (ws : socket) (userId : value)
    (data now : string) (reg : registry) : list ws_event :=
  try_catch
    (message ← JSON_parse data;
     handleChatMessage userId message now reg)
    (fun error => [Send ws invalid_message]).

(** Lines 174-178. *)
Definition close_listener (userId : value) (now : string) (reg : registry)
  : registry * list ws_event :=
  match toString userId with
  | Some key =>
      let reg' := JsMap.delete key reg in
      (reg', broadcastOnlineUsers now reg')
  | None => (reg, [])
  end.

Definition welcome (now : string) : value :=
  stringify [("type", VStr "system");
             ("message", VStr "Connected to Echo Chat");
             ("timestamp", VStr now)].

(** Lines 125-184; [token] is [url.searchParams.get('token')]. *)
Definition connection (ws : socket) (token : value) (now : string)
    (reg : registry) : registry * list ws_event * listeners :=
  if negb (truthy token)
  then (reg, [Close ws 1008 "Authentication required"], no_listeners)
  else
    try_catch
      (decoded ← jwt_verify token (JWT_SECRET cfg);
       a ← prop decoded "userId";
       b ← prop decoded "id";
       c ← prop decoded "user_id";
       let userId := or (or a b) c in
       if negb (truthy userId)
       then mret (reg, [Close ws 1008 "Invalid token: no user ID"],
                  no_listeners)
       else
         key ← toString_call userId;
         let reg' := JsMap.set key ws reg in
         mret (reg',
               Send ws (welcome now) :: broadcastOnlineUsers now reg',
               Listeners (Some (message_listener ws userId))
                         (Some (close_listener userId))))
      (fun error => (reg, [Close ws 1008 "Invalid token"], no_listeners)).
End WithLibraries.

End Echo.

(** ** echo.js, the HTTP routes *)

Module EchoHttp.
Import JS Platform.

(** Lines 22-35 and 432: the settings of the external services, as
    [process.env] holds them. *)
Record services : Type := Services {
  BREVO_API_KEY : option string;
  TWILIO_ACCOUNT_SID : option string;
  TWILIO_AUTH_TOKEN : option string;
  TWILIO_PHONE_NUMBER : option string;
  FROM_EMAIL : option string;
  S3_BUCKET : string
}.

(** A variable of the environment as a value. *)
Definition setting (o : option string) : value :=
  match o with
  | Some s => VStr s
  | None => VUndefined
  end.

(** A variable of the environment inside a template literal. *)
Definition interpolate (o : option string) : string :=
  match o with
  | Some s => s
  | None => "undefined"
  end.

Definition load_services (env : environment) : services :=
  Services (env !! "BREVO_API_KEY") (env !! "TWILIO_ACCOUNT_SID")
    (env !! "TWILIO_AUTH_TOKEN") (env !! "TWILIO_PHONE_NUMBER")
    (env !! "FROM_EMAIL")
    (match or (env_get env "S3_BUCKET") (VStr "echo-uploads") with
     | VStr s => s
     | _ => ""
     end).

(** What a route handler that takes [next] ends in. *)
Inductive routed : Type :=
| Falls_through
| Handled (tr : list event).

(** A call to an external provider: [axios.post(url, data, { headers, auth })]. *)
Record service_call : Type := ServiceCall {
  svc_url : string;
  svc_data : value;
  svc_headers : list (string * value);
  svc_auth : option (string * string)
}.

Inductive service_event : Type :=
| Call (c : service_call)
| Respond (status : Z) (json : value).

(** [req.file] as multer leaves it. *)
Record file : Type := File {
  originalname : string;
  buffer : value;
  mimetype : string;
  size : Z
}.

Inductive upload_event : Type :=
| PutObject (bucket key : string) (body : value) (contentType : string)
    (metadata : list (string * value))
| UploadReply (status : Z) (json : value).

(** Line 518: the characters that [/[^a-zA-Z0-9.-]/g] leaves alone. *)
Definition kept (c : ascii) : bool :=
  let n := nat_of_ascii c in
  (Nat.leb 97 n && Nat.leb n 122) || (Nat.leb 65 n && Nat.leb n 90)
  || (Nat.leb 48 n && Nat.leb n 57) || Ascii.eqb c "." || Ascii.eqb c "-".

(** [name.replace(/[^a-zA-Z0-9.-]/g, '_')] *)
Fixpoint sanitize (name : string) : string :=
  match name with
  | EmptyString => EmptyString
  | String c rest => String (if kept c then c else "_"%char) (sanitize rest)
  end.

(** [axios({ ..., validateStatus: () => true })] of the proxy routes. *)
Definition proxy_client : client := Client 0 None (fun _ => true).

(** [axios.post(url, data)] and [axios.post(url, data, { headers })]: the
    defaults of axios. *)
Definition post_client : client := Client 0 None default_validateStatus.

Definition no_token : value :=
  VObj [("success", VBool false);
        ("error", VStr "Access denied. No token provided.");
        ("code", VStr "NO_TOKEN")].

Definition unavailable (text : string) : value :=
  VObj [("success", VBool false);
        ("error", VStr text);
        ("code", VStr "SERVICE_UNAVAILABLE")].

Section WithLibraries.
Context `{Libraries}.
Variable cfg : config.

(** The second [try] of each proxy route once the request object is built:
    lines 261-283, 292-315, 324-347, 355-378, 386-409. *)
Definition relay (call : outbound) (text : string) (up : upstream)
  : list event :=
  Forward call ::
  match axios proxy_client up with
  | Settled (Return (status, data)) => [Reply status data]
  | Settled (Throw error) => [Reply 502 (unavailable text)]
  | Pending => []
  end.

(** Lines 227-284: [app.all('/users*', ...)]. *)
Definition users_route (req : request) (up : upstream) : routed :=
  if String.eqb (path req) "/users/login"
     || String.eqb (path req) "/users/register"
  then Falls_through
  else
    let authHeader := headers req !! "authorization" in
    match authHeader with
    | None => Handled [Reply 401 no_token]
    | Some authHeader =>
        if negb (truthy (VStr authHeader))
           || negb (startsWith authHeader "Bearer ")
        then Handled [Reply 401 no_token]
        else
          let token :=
            default VUndefined (VStr <$> split " " authHeader !! 1%nat) in
          match
            (decoded ← jwt_verify token (JWT_SECRET cfg);
             userId ← prop decoded "userId";
             id ← prop decoded "id";
             user_id ← prop decoded "user_id";
             mret (VObj [("userId", or (or userId id) user_id)]))
          with
          | Throw error =>
              Handled [Reply 401 (VObj [("success", VBool false);
                                        ("error", VStr "Invalid token");
                                        ("code", VStr "INVALID_TOKEN")])]
          | Return user =>
              let targetURL := PYTHON_BACKEND cfg +:+ path req in
              Handled
                (relay
                   (Outbound (method req) targetURL (body req) (query req)
                      (<["host" := VStr (URL_host (PYTHON_BACKEND cfg))]>
                         (<["x-forwarded-by" := VStr "echo-gateway"]>
                            (VStr <$> headers req))))
                   "Python service unavailable" up)
          end
    end.

(** Lines 287-316, 319-348, 350-379 and 381-410: the routes behind the
    middleware [authenticate]; they differ in the text of the 502 reply.
    The request object is built inside the [try], so a failing read of
    [req.user.userId] ends in the 502 reply as well. *)
Definition proxy_route (text : string) (req : request) (up : upstream)
  : list event :=
  match Echo.authenticate cfg req with
  | Answer status json => [Reply status json]
  | Next user =>
      let targetURL := PYTHON_BACKEND cfg +:+ path req in
      try_catch
        (userId ← prop user "userId";
         mret (relay
                 (Outbound (method req) targetURL (body req) (query req)
                    (<["host" := VStr (URL_host (PYTHON_BACKEND cfg))]>
                       (<["x-user-id" := userId]>
                          (<["x-forwarded-by" := VStr "echo-gateway"]>
                             (VStr <$> headers req)))))
                 text up))
        (fun error => [Reply 502 (unavailable text)])
  end.

Definition api_schools : request -> upstream -> list event :=
  proxy_route "Python service unavailable".
Definition grades : request -> upstream -> list event :=
  proxy_route "Grades service unavailable".
Definition results : request -> upstream -> list event :=
  proxy_route "Results service unavailable".
Definition payments : request -> upstream -> list event :=
  proxy_route "Payments service unavailable".

(** Lines 557-569 and 571-583: [axios.post(target, req.body)], the error's
    response relayed when there is one. *)
Definition auth_forward (target failure : string) (req : request)
    (up : upstream) : list event :=
  Forward (Outbound "POST" (PYTHON_BACKEND cfg +:+ target) (body req)
             VUndefined ∅) ::
  match axios post_client up with
  | Settled (Return (status, data)) => [Reply status data]
  | Settled (Throw error) =>
      let status :=
        or (match response error with
            | Some (s, _) => VNum s
            | None => VUndefined
            end) (VNum 500) in
      let json :=
        or (match response error with
            | Some (_, d) => d
            | None => VUndefined
            end) (VObj [("error", VStr failure)]) in
      [Reply (match status with VNum s => s | _ => 500 end) json]
  | Pending => []
  end.

Definition auth_register : request -> upstream -> list event :=
  auth_forward "/users/register" "Registration failed".
Definition auth_login : request -> upstream -> list event :=
  auth_forward "/users/login" "Login failed".

Definition email_failed : value :=
  VObj [("success", VBool false);
        ("error", VStr "Failed to send email");
        ("code", VStr "EMAIL_SEND_FAILED")].

(** Lines 417-458: [app.post('/email/send', authenticate, ...)].  The
    destructuring of [req.body] is outside the [try]: when it throws, the
    handler's promise rejects and nothing has been sent. *)
Definition email_send (svc : services) (req : request) (up : upstream)
  : completion (list service_event) :=
  match Echo.authenticate cfg req with
  | Answer status json => mret [Respond status json]
  | Next user =>
      to ← prop (body req) "to";
      subject ← prop (body req) "subject";
      htmlContent ← prop (body req) "htmlContent";
      if negb (truthy (setting (BREVO_API_KEY svc))) then
        mret [Respond 501
                (VObj [("success", VBool false);
                       ("error", VStr "Email service not configured");
                       ("code", VStr "EMAIL_SERVICE_DISABLED")])]
      else
        mret
          (Call (ServiceCall "https://api.brevo.com/v3/smtp/email"
                   (VObj [("sender",
                           VObj [("email",
                                  or (setting (FROM_EMAIL svc))
                                     (VStr "noreply@echo.example.com"))]);
                          ("to", VArr [VObj [("email", to)]]);
                          ("subject", subject);
                          ("htmlContent", htmlContent)])
                   [("api-key", setting (BREVO_API_KEY svc));
                    ("Content-Type", VStr "application/json")]
                   None) ::
           match axios post_client up with
           | Settled (Return (_, data)) =>
               try_catch
                 (messageId ← prop data "messageId";
                  mret [Respond 200
                          (VObj [("success", VBool true);
                                 ("messageId", messageId);
                                 ("message",
                                  VStr "Email sent successfully")])])
                 (fun error => [Respond 500 email_failed])
           | Settled (Throw error) => [Respond 500 email_failed]
           | Pending => []
           end)
  end.

Definition sms_failed : value :=
  VObj [("success", VBool false);
        ("error", VStr "Failed to send SMS");
        ("code", VStr "SMS_SEND_FAILED")].

(** Lines 461-504: [app.post('/sms/send', authenticate, ...)].  The form
    that [URLSearchParams] encodes is kept as the object it is built from. *)
Definition sms_send (svc : services) (req : request) (up : upstream)
  : completion (list service_event) :=
  match Echo.authenticate cfg req with
  | Answer status json => mret [Respond status json]
  | Next user =>
      to ← prop (body req) "to";
      message ← prop (body req) "message";
      if negb (truthy (setting (TWILIO_ACCOUNT_SID svc)))
         || negb (truthy (setting (TWILIO_AUTH_TOKEN svc))) then
        mret [Respond 501
                (VObj [("success", VBool false);
                       ("error", VStr "SMS service not configured");
                       ("code", VStr "SMS_SERVICE_DISABLED")])]
      else
        mret
          (Call (ServiceCall
                   ("https://api.twilio.com/2010-04-01/Accounts/"
                    +:+ interpolate (TWILIO_ACCOUNT_SID svc)
                    +:+ "/Messages.json")
                   (VObj [("To", to);
                          ("From", setting (TWILIO_PHONE_NUMBER svc));
                          ("Body", message)])
                   [("Content-Type",
                     VStr "application/x-www-form-urlencoded")]
                   (Some (interpolate (TWILIO_ACCOUNT_SID svc),
                          interpolate (TWILIO_AUTH_TOKEN svc)))) ::
           match axios post_client up with
           | Settled (Return (_, data)) =>
               try_catch
                 (sid ← prop data "sid";
                  mret [Respond 200
                          (VObj [("success", VBool true);
                                 ("sid", sid);
                                 ("message", VStr "SMS sent successfully")])])
                 (fun error => [Respond 500 sms_failed])
           | Settled (Throw error) => [Respond 500 sms_failed]
           | Pending => []
           end)
  end.

Definition upload_failed : value :=
  VObj [("success", VBool false);
        ("error", VStr "Failed to upload file");
        ("code", VStr "UPLOAD_FAILED")].

(** Lines 507-552: [app.post('/upload', authenticate, upload.single('file'),
    ...)]; [now] is [Date.now()] and [s3] is what [s3Client.send(command)]
    settles to. *)
Definition upload (svc : services) (req : request) (file : option file)
    (now : Z) (s3 : awaited unit) : list upload_event :=
  match Echo.authenticate cfg req with
  | Answer status json => [UploadReply status json]
  | Next user =>
      match file with
      | None =>
          [UploadReply 400 (VObj [("success", VBool false);
                                  ("error", VStr "No file uploaded");
                                  ("code", VStr "NO_FILE")])]
      | Some file =>
          let fileName :=
            pretty now +:+ "-" +:+ sanitize (originalname file) in
          try_catch
            (userId ← prop user "userId";
             mret
               (PutObject (S3_BUCKET svc) ("uploads/" +:+ fileName)
                  (buffer file) (mimetype file)
                  [("uploadedBy", or userId (VStr "unknown"));
                   ("originalName", VStr (originalname file))] ::
                match s3 with
                | Settled (Return _) =>
                    let fileUrl :=
                      "https://" +:+ S3_BUCKET svc
                      +:+ ".s3.amazonaws.com/uploads/" +:+ fileName in
                    [UploadReply 200
                       (VObj [("success", VBool true);
                              ("fileName", VStr fileName);
                              ("fileUrl", VStr fileUrl);
                              ("size", VNum (size file));
                              ("type", VStr (mimetype file));
                              ("message",
                               VStr "File uploaded successfully")])]
                | Settled (Throw error) => [UploadReply 500 upload_failed]
                | Pending => []
                end))
            (fun error => [UploadReply 500 upload_failed])
      end
  end.
End WithLibraries.

End EchoHttp.

(** ** The four connection handlers side by side *)

Module Revisions.
Import JS Platform.

Inductive revision : Type := gateway_1_1 | gateway_1_4 | echo_1 | echo.

(** The order in which the connection handler of a revision tries the id
    fields of the decoded token: [decoded.userId || decoded.id ||
    decoded.user_id], and in version 1.4 of gateway.js [decoded.user_id ||
    decoded.userId || decoded.id]. *)
Definition id_order (r : revision) : list string :=
  match r with
  | gateway_1_4 => ["user_id"; "userId"; "id"]
  | _ => ["userId"; "id"; "user_id"]
  end.

Section WithLibraries.
Context `{Libraries}.
Variable cfg : config.

(** [wss.on('connection', ...)] of a revision; only echo.js reads the clock. *)
Definition connect (r : revision) (ws : socket) (token : value) (now : string)
    (reg : registry) : registry * list ws_event * listeners :=
  match r with
  | gateway_1_1 => GatewayV11.connection cfg ws token reg
  | gateway_1_4 => GatewayV14.connection cfg ws token reg
  | echo_1 => Echo1.connection cfg ws token reg
  | echo => Echo.connection cfg ws token now reg
  end.
End WithLibraries.

End Revisions.

(** ** Notions used to state what the handlers do *)

Module Checks.
Import JS Platform.

(** The probe [axios.get(url, { timeout: ms })] of a health route succeeds:
    the upstream answers before the timer fires with a status that the
    default [validateStatus] accepts. *)
Definition probe_ok (ms : Z) (up : upstream) : bool :=
  match up with
  | Responds after status _ =>
      (after <? ms) && ((status =? 0) || default_validateStatus status)
  | Silent => false
  | Unreachable _ _ => false
  end.

(** The replies of a trace of provider calls, and its calls. *)
Definition responses (tr : list EchoHttp.service_event) : list (Z * value) :=
  omap (fun e => match e with
                 | EchoHttp.Respond s b => Some (s, b)
                 | EchoHttp.Call _ => None
                 end) tr.
Definition calls (tr : list EchoHttp.service_event)
  : list EchoHttp.service_call :=
  omap (fun e => match e with
                 | EchoHttp.Call c => Some c
                 | EchoHttp.Respond _ _ => None
                 end) tr.

(** A provider called without a timer accepts the call: it answers with a
    status that the default [validateStatus] lets through. *)
Definition accepted (up : upstream) : bool :=
  match up with
  | Responds _ status _ => (status =? 0) || default_validateStatus status
  | Silent => false
  | Unreachable _ _ => false
  end.

(** The characters of the name of a stored file: ASCII letters, digits,
    the dot, the hyphen and the underscore. *)
Definition plain (c : ascii) : bool := EchoHttp.kept c || Ascii.eqb c "_".

(** The characters of a string. *)
Fixpoint chars (s : string) : list ascii :=
  match s with
  | EmptyString => []
  | String c rest => c :: chars rest
  end.

(** The error that [jwt.verify] throws makes the gateway answer with this
    code. *)
Definition rejection_code (e : error) : string :=
  if String.eqb (name e) "TokenExpiredError" then "TOKEN_EXPIRED"
  else "INVALID_TOKEN".
Definition rejection_text (e : error) : string :=
  if String.eqb (name e) "TokenExpiredError"
  then "Token expired. Please login again."
  else "Invalid token.".

(** The token of an [Authorization] header: [authHeader.split(' ')[1]]. *)
Definition bearer_token (authHeader : string) : value :=
  default VUndefined (VStr <$> split " " authHeader !! 1%nat).

End Checks.

(** ** Concrete libraries, requests and tokens to run the handlers on *)

Module Fixture.
Import JS Platform.

Definition expired : error :=
  Error "TokenExpiredError" "jwt expired" None None.
Definition bad_signature : error :=
  Error "JsonWebTokenError" "invalid signature" None None.
Definition syntax_error : error :=
  Error "SyntaxError" "Unexpected token" None None.

(** The text of a JSON string literal and of the frames used below. *)
Definition quoted (s : string) : string :=
  String "034"%char (s +:+ String "034"%char "").
Definition ping_frame : string :=
  "{" +:+ quoted "type" +:+ ":" +:+ quoted "ping" +:+ "}".
Definition private_to_5 : string :=
  "{" +:+ quoted "type" +:+ ":" +:+ quoted "private" +:+ ","
  +:+ quoted "receiverId" +:+ ":5," +:+ quoted "content" +:+ ":"
  +:+ quoted "hello" +:+ "}".

(** [JSON.stringify] on the values whose strings need no escape; [undefined]
    in an array is written [null] and a property that is [undefined] is left
    out. *)
Fixpoint print (v : value) : string :=
  match v with
  | VUndefined => ""
  | VNull => "null"
  | VBool b => if b then "true" else "false"
  | VNum z => pretty z
  | VFloat text => text
  | VStr s => quoted s
  | VArr l =>
      "[" +:+ join ","
                ((fix each (l : list value) : list string :=
                    match l with
                    | [] => []
                    | VUndefined :: rest => "null" :: each rest
                    | x :: rest => print x :: each rest
                    end) l) +:+ "]"
  | VObj fields =>
      "{" +:+ join ","
                ((fix each (fields : list (string * value)) : list string :=
                    match fields with
                    | [] => []
                    | (k, VUndefined) :: rest => each rest
                    | (k, x) :: rest =>
                        (quoted k +:+ ":" +:+ print x) :: each rest
                    end) fields) +:+ "}"
  end.

(** Tokens are named by what they decode to; every other string fails the
    signature check.  [JSON_parse] knows the frames above and [null]; the
    numbers are printed by their decimal numeral, which is what the engine
    does on the safe integers used below. *)
Definition libraries : Libraries := {|
  numbers := {| Number_toString := pretty;
                Number_toString_safe := fun z _ => eq_refl |};
  jwt_verify token secret :=
    match token with
    | VStr "token-userId-5" => Return (VObj [("userId", VNum 5)])
    | VStr "token-userId-5-as-text" => Return (VObj [("userId", VStr "5")])
    | VStr "token-user_id-7-id-9" =>
        Return (VObj [("id", VNum 9); ("user_id", VNum 7)])
    | VStr "token-email-only" =>
        Return (VObj [("email", VStr "ann@example.org")])
    | VStr "token-expired" => Throw expired
    | _ => Throw bad_signature
    end;
  JSON_parse data :=
    if String.eqb data ping_frame
    then Return (VObj [("type", VStr "ping")])
    else if String.eqb data private_to_5
    then Return (VObj [("type", VStr "private");
                       ("receiverId", VNum 5);
                       ("content", VStr "hello")])
    else if String.eqb data "null" then Return VNull
    else Throw syntax_error;
  JSON_stringify := print;
  URL_host u := "echo-backend.up.railway.app";
  default_maxRedirects := 21;
  default_maxRedirects_pos := ltac:(done)
|}.

Definition cfg : config :=
  Config (VNum 3000) "https://echo-backend.up.railway.app" "s3cret".

(** A request with a simple target: [req.path] is the path name of the
    target. *)
Definition get_request (url : string) (auth : option string) : request :=
  Request "GET" url (pathname url)
    (match auth with
     | Some h => {[ "authorization" := h ]}
     | None => ∅
     end)
    VUndefined (VObj []).

Definition ok_body : value := VObj [("ok", VBool true)].


End Fixture.

(** ** More requests and settings to run the handlers on *)

Module Samples.
Import JS Platform.

(** A client that sends identity headers of its own. *)
Definition spoofing_request : request :=
  Request "GET" "/api/widgets" "/api/widgets"
    (<["authorization" := "Bearer token-userId-5"]>
       (<["x-user-id" := "1"]>
          (<["accept" := "application/json"]> ∅)))
    VUndefined (VObj []).

Definition mail_request : request :=
  Request "POST" "/email/send" "/email/send"
    {[ "authorization" := "Bearer token-userId-5" ]}
    (VObj [("to", VStr "ann@example.org");
           ("subject", VStr "Term report");
           ("htmlContent", VStr "<p>Attached.</p>");
           ("message", VStr "Term report is out")])
    (VObj []).




Definition grades_request : request :=
  Request "GET" "/grades/7?term=2" "/grades/7"
    {[ "authorization" := "Bearer token-userId-5" ]}
    (VObj []) (VObj [("term", VStr "2")]).

Definition login_request : request :=
  Request "POST" "/auth/login" "/auth/login"
    {[ "content-type" := "application/json" ]}
    (VObj [("email", VStr "ann@example.org"); ("password", VStr "pw")])
    (VObj []).

Definition no_services : EchoHttp.services :=
  EchoHttp.Services None None None None None "echo-uploads".

Definition all_services : EchoHttp.services :=
  EchoHttp.Services (Some "brevo-key") (Some "AC0001") (Some "twilio-token")
    (Some "+15550100") None "echo-uploads".

Definition report : EchoHttp.file :=
  EchoHttp.File "term report (final).pdf" (VStr "%PDF") "application/pdf" 4.

Definition user_5 : value :=
  VObj [("userId", VNum 5); ("email", VUndefined); ("role", VUndefined)].

End Samples.

(** * Properties *)

(** ** The JavaScript primitives on small inputs *)

Lemma toString_safe_integer `{JS.Numbers} (z : Z) :
  - 9007199254740991 <= z <= 9007199254740991 →
  JS.toString (JS.VNum z) = Some (pretty z).
Proof. intros Hz. simpl. by rewrite JS.Number_toString_safe. Qed.

Example toString_number_and_text `{JS.Numbers} :
  JS.toString (JS.VNum 5) = Some "5" ∧ JS.toString (JS.VStr "5") = Some "5".
Proof. split; [by rewrite toString_safe_integer by lia | done]. Qed.

Example toString_array `{JS.Numbers} :
  JS.toString (JS.VArr [JS.VNum 1; JS.VNull; JS.VStr "a"]) = Some "1,,a".
Proof. simpl. by rewrite JS.Number_toString_safe by lia. Qed.

Example toString_shadowed `{JS.Numbers} :
  JS.toString (JS.VObj [("toString", JS.VNum 1)]) = None
  ∧ JS.toString (JS.VObj [("id", JS.VNum 1)]) = Some "[object Object]".
Proof. by split. Qed.

Example split_authorization :
  JS.split " " "Bearer abc.def.ghi" = ["Bearer"; "abc.def.ghi"]
  ∧ JS.split " " "Bearer " = ["Bearer"; ""].
Proof. by split. Qed.

Example toLowerCase_path :
  JS.toLowerCase "/Health/Live" = "/health/live".
Proof. reflexivity. Qed.

Example pathname_of_target :
  Platform.pathname "/api/widgets?page=2" = "/api/widgets".
Proof. reflexivity. Qed.

Example simple_targets :
  Platform.simple_target "/api/widgets?page=2" = true
  ∧ Platform.simple_target "http://h/healthz-internal/metrics" = false
  ∧ Platform.simple_target "/login#top" = false.
Proof. by split_and!. Qed.

Example route_matches_samples :
  Platform.route_matches "/api/*" "/API/Widgets" = true
  ∧ Platform.route_matches "/api/schools*" "/api/schools" = true
  ∧ Platform.route_matches "/schools/join" "/Schools/Join/" = true
  ∧ Platform.route_matches "/schools/join" "/schools/joined" = false
  ∧ GatewayV11.reaches_authenticate "/health" = false
  ∧ GatewayV11.reaches_authenticate "/auth/login" = false.
Proof. by split_and!. Qed.

Example or_takes_first_truthy :
  JS.or (JS.or JS.VUndefined (JS.VNum 0)) (JS.VStr "u7") = JS.VStr "u7".
Proof. reflexivity. Qed.

(** ** Redirects *)

Example redirect_followed_or_handed_over :
  let moved :=
    Platform.Moved 10 302 (JS.VStr "")
      (Platform.Direct (Platform.Responds 15 200 Fixture.ok_body)) in
  Platform.deliver (H:=Fixture.libraries) GatewayV11.proxy_client moved
  = Platform.Responds 25 200 Fixture.ok_body
  ∧ Platform.deliver (H:=Fixture.libraries) GatewayV14.axiosInstance moved
    = Platform.Responds 10 302 (JS.VStr "")
  ∧ Platform.follow 1 0 (Platform.Moved 5 301 (JS.VStr "") moved)
    = Platform.Unreachable "ERR_FR_TOO_MANY_REDIRECTS"
        "Maximum number of redirects exceeded".
Proof. by split_and!. Qed.

(** ** The [Map] object *)

Section MapFacts.
Context {V : Type}.
Implicit Types (m : JsMap.t V) (k : string) (v : V).

Lemma map_get_set_eq m k v : JsMap.get k (JsMap.set k v m) = Some v.
Proof.
  induction m as [|[k' v'] m IH]; simpl.
  - by rewrite String.eqb_refl.
  - destruct (String.eqb k k') eqn:E; simpl; rewrite ?E, ?String.eqb_refl;
      done.
Qed.

Lemma map_get_set_ne m k k' v :
  k ≠ k' → JsMap.get k' (JsMap.set k v m) = JsMap.get k' m.
Proof.
  intros Hne. induction m as [|[k0 v0] m IH]; simpl.
  - destruct (String.eqb_spec k' k); congruence.
  - destruct (String.eqb_spec k k0) as [->|]; simpl.
    + destruct (String.eqb_spec k' k0); congruence.
    + by rewrite IH.
Qed.

Lemma map_get_delete_ne m k k' :
  k ≠ k' → JsMap.get k' (JsMap.delete k m) = JsMap.get k' m.
Proof.
  intros Hne. induction m as [|[k0 v0] m IH]; simpl; [done|].
  destruct (String.eqb_spec k k0) as [->|]; simpl.
  - destruct (String.eqb_spec k' k0); congruence.
  - by rewrite IH.
Qed.

Lemma map_get_None m k : JsMap.get k m = None ↔ k ∉ JsMap.keys m.
Proof.
  unfold JsMap.keys. induction m as [|[k0 v0] m IH]; simpl.
  - split; [intros _; apply not_elem_of_nil | done].
  - rewrite not_elem_of_cons.
    destruct (String.eqb_spec k k0); [|rewrite IH]; split; try done;
      tauto.
Qed.

Lemma map_keys_set m k v :
  JsMap.keys (JsMap.set k v m) =
    if bool_decide (k ∈ JsMap.keys m) then JsMap.keys m
    else JsMap.keys m ++ [k].
Proof.
  unfold JsMap.keys. induction m as [|[k0 v0] m IH]; simpl; [done|].
  destruct (String.eqb_spec k k0) as [->|Hne]; simpl.
  - rewrite bool_decide_eq_true_2; [done | apply list_elem_of_here].
  - rewrite IH. repeat case_bool_decide; try done; exfalso;
      rewrite elem_of_cons in *; tauto.
Qed.

Lemma map_keys_delete m k :
  JsMap.wf m → JsMap.keys (JsMap.delete k m) = List.filter
    (fun k' => negb (String.eqb k k')) (JsMap.keys m).
Proof.
  unfold JsMap.wf, JsMap.keys. induction m as [|[k0 v0] m IH]; simpl;
    [done|].
  intros [Hnotin Hnd]%NoDup_cons.
  destruct (String.eqb_spec k k0) as [->|Hne]; simpl.
  - clear IH Hnd. symmetry. induction m as [|[k1 v1] m IH]; simpl; [done|].
    simpl in Hnotin. apply not_elem_of_cons in Hnotin as [Hne Hnotin].
    destruct (String.eqb_spec k0 k1); [congruence|]. simpl.
    by rewrite IH.
  - by rewrite IH.
Qed.

Lemma map_wf_empty : JsMap.wf (@JsMap.empty V).
Proof. apply NoDup_nil_2. Qed.

Lemma map_wf_set m k v : JsMap.wf m → JsMap.wf (JsMap.set k v m).
Proof.
  unfold JsMap.wf. intros Hwf. rewrite map_keys_set.
  case_bool_decide as Hin; [done|].
  apply NoDup_app. split_and!; [done| |apply NoDup_singleton].
  intros x Hx ->%list_elem_of_singleton. done.
Qed.

Lemma map_wf_delete m k : JsMap.wf m → JsMap.wf (JsMap.delete k m).
Proof.
  unfold JsMap.wf, JsMap.keys. induction m as [|[k0 v0] m IH]; simpl;
    [done|].
  intros [Hnotin Hnd]%NoDup_cons.
  destruct (String.eqb_spec k k0) as [->|Hne]; simpl; [done|].
  apply NoDup_cons. split; [|by apply IH].
  intros Hin. apply Hnotin. clear -Hin.
  induction m as [|[k1 v1] m IH]; simpl in *; [done|].
  destruct (String.eqb k k1); simpl in *.
  - by apply list_elem_of_further.
  - apply elem_of_cons in Hin as [->|Hin];
      [apply list_elem_of_here | apply list_elem_of_further; auto].
Qed.

Lemma map_get_delete_eq m k :
  JsMap.wf m → JsMap.get k (JsMap.delete k m) = None.
Proof.
  intros Hwf. apply map_get_None. rewrite map_keys_delete by done.
  intros Hin%list_elem_of_In%filter_In. destruct Hin as [_ Hin].
  by rewrite String.eqb_refl in Hin.
Qed.
End MapFacts.

(** ** The request pipeline *)

Section Pipeline.
Import JS Platform.
Context `{Libraries} (cfg : config).






(** C2. A request to a path that the matcher does not class as public and
    that carries no [Authorization] header starting with ["Bearer "] is
    answered 401 with code [NO_TOKEN], and that reply is the whole trace of
    the handler: the upstream is not called.  This holds in gateway.js
    (both versions) and in echo (1).js; the middleware of echo.js answers
    the same and does not call [next()]. *)
Theorem protected_without_bearer_rejected req startTime endTime up :
  has_bearer req = false →
  let body := VObj [("success", VBool false);
                    ("error", VStr "Access denied. No token provided.");
                    ("code", VStr "NO_TOKEN")] in
  (GatewayV11.public_route (path req) = false →
   GatewayV11.createProxyHandler cfg true req up = [Reply 401 body]
   ∧ forwarded (GatewayV11.createProxyHandler cfg true req up) = false)
  ∧ (GatewayV14.public_route (path req) = false →
     GatewayV14.createProxyHandler cfg true req startTime endTime up
       = [Reply 401 body]
     ∧ forwarded
         (GatewayV14.createProxyHandler cfg true req startTime endTime up)
       = false)
  ∧ (Echo1.public_route (path req) = false →
     Echo1.createProxyHandler cfg true req up = [Reply 401 body]
     ∧ forwarded (Echo1.createProxyHandler cfg true req up) = false)
  ∧ (Echo.public_route (path req) = false →
     Echo.authenticate cfg req = Answer 401 body).
Proof.
  intros Hb body. unfold has_bearer in Hb.
  assert (GatewayV11.public_route (path req) = false →
          GatewayV11.authenticate cfg req = Answer 401 body) as H11.
  { intros Hp. unfold GatewayV11.authenticate. rewrite Hp.
    destruct (headers req !! "authorization") as [h|]; [|done].
    by rewrite Hb, orb_true_r. }
  assert (GatewayV14.public_route (path req) = false →
          GatewayV14.authenticate cfg req = Answer 401 body) as H14.
  { intros Hp. unfold GatewayV14.authenticate. rewrite Hp.
    destruct (headers req !! "authorization") as [h|]; [|done].
    by rewrite Hb, orb_true_r. }
  assert (Echo1.public_route (path req) = false →
          Echo1.authenticate cfg req = Answer 401 body) as HE1.
  { intros Hp. unfold Echo1.authenticate. rewrite Hp.
    destruct (headers req !! "authorization") as [h|]; [|done].
    by rewrite Hb, orb_true_r. }
  split_and!; intros Hp.
  - unfold GatewayV11.createProxyHandler. by rewrite H11.
  - unfold GatewayV14.createProxyHandler. by rewrite H14.
  - unfold Echo1.createProxyHandler. by rewrite HE1.
  - unfold Echo.authenticate. rewrite Hp.
    destruct (headers req !! "authorization") as [h|]; [|done].
    by rewrite Hb, orb_true_r.
Qed.

Lemma prop_defined (v : value) (k : string) :
  v ≠ VUndefined → v ≠ VNull → prop v k = Return (get_opt v k).
Proof. unfold prop, get_opt. destruct v; simpl; congruence. Qed.

Lemma bearer_not_empty (h : string) :
  startsWith h "Bearer " = true → truthy (VStr h) = true.
Proof. by destruct h. Qed.

(** What version 1.1 makes of a token that verifies: the id is resolved in
    the order [userId], [id], [user_id]; no id, no entry. *)
Lemma v11_token_identity req h decoded :
  GatewayV11.public_route (path req) = false →
  headers req !! "authorization" = Some h →
  startsWith h "Bearer " = true →
  jwt_verify (default VUndefined (VStr <$> split " " h !! 1%nat))
    (JWT_SECRET cfg) = Return decoded →
  decoded ≠ VUndefined → decoded ≠ VNull →
  GatewayV11.authenticate cfg req =
    match resolve_id decoded ["userId"; "id"; "user_id"] with
    | Some v =>
        Next (VObj [("id", v);
                    ("email", get_opt decoded "email");
                    ("role", get_opt decoded "role");
                    ("schoolId", get_opt decoded "schoolId")])
    | None =>
        Answer 401 (VObj [("success", VBool false);
                          ("error", VStr "Invalid token format");
                          ("code", VStr "INVALID_TOKEN")])
    end.
Proof.
  intros Hp Hh Hb Hv Hu Hn. unfold GatewayV11.authenticate.
  rewrite Hp, Hh, Hb, (bearer_not_empty h Hb), Hv. simpl.
  rewrite !prop_defined by done. simpl.
  unfold resolve_id, or. simpl.
  destruct (truthy (get_opt decoded "userId")) eqn:E1; simpl;
    rewrite ?E1; [done|].
  destruct (truthy (get_opt decoded "id")) eqn:E2; simpl;
    rewrite ?E2; [done|].
  by destruct (truthy (get_opt decoded "user_id")) eqn:E3; simpl;
    rewrite ?E3.
Qed.

(** Version 1.4 resolves the id in the order [user_id], [userId], [id], and
    lets the request pass when there is none. *)
Lemma v14_token_identity req h decoded :
  GatewayV14.public_route (path req) = false →
  headers req !! "authorization" = Some h →
  startsWith h "Bearer " = true →
  jwt_verify (default VUndefined (VStr <$> split " " h !! 1%nat))
    (JWT_SECRET cfg) = Return decoded →
  decoded ≠ VUndefined → decoded ≠ VNull →
  GatewayV14.authenticate cfg req =
    Next (VObj [("id",
                 default (get_opt decoded "id")
                   (resolve_id decoded ["user_id"; "userId"; "id"]));
                ("email", get_opt decoded "email");
                ("role", get_opt decoded "role");
                ("schoolId",
                 or (get_opt decoded "school_id")
                    (get_opt decoded "schoolId"))]).
Proof.
  intros Hp Hh Hb Hv Hu Hn. unfold GatewayV14.authenticate.
  rewrite Hp, Hh, Hb, (bearer_not_empty h Hb), Hv. simpl.
  rewrite !prop_defined by done. simpl.
  unfold resolve_id, or. simpl.
  destruct (truthy (get_opt decoded "user_id")) eqn:E1; simpl;
    rewrite ?E1; [done|].
  destruct (truthy (get_opt decoded "userId")) eqn:E2; simpl;
    rewrite ?E2; [done|].
  by destruct (truthy (get_opt decoded "id")) eqn:E3; simpl; rewrite ?E3.
Qed.

(** Version 1.4 on a call the upstream leaves unanswered for 10000 ms. *)
Lemma v14_timeout_reported req user startTime endTime up :
  unanswered_within 10000 up = true →
  GatewayV14.handleProxyRequest cfg req user startTime endTime up =
    [Forward (GatewayV14.proxy_call cfg req user startTime);
     Reply 504 (VObj [("success", VBool false);
                      ("error", VStr "Backend timeout");
                      ("code", VStr "BACKEND_TIMEOUT");
                      ("path", VStr (originalUrl req))])].
Proof.
  unfold GatewayV14.handleProxyRequest, axios, in_time.
  destruct up as [after status data| |errno text]; simpl; [|done|done].
  intros Hle. apply Z.leb_le in Hle.
  by rewrite (proj2 (Z.ltb_ge after 10000) Hle).
Qed.

(** C5 (amended). The forwarder of version 1.4 sets a timeout of 10000 ms,
    and on every call that the upstream leaves unanswered for that long the
    gateway replies once, 504 with code [BACKEND_TIMEOUT] and the request
    path.  The forwarder of version 1.1 sets no timeout and does not reply
    while the upstream stays silent. *)
Theorem timeout_reported_where_configured requiresAuth req startTime endTime
    up :
  unanswered_within 10000 up = true →
  let tr14 :=
    GatewayV14.createProxyHandler cfg requiresAuth req startTime endTime up in
  (timeout GatewayV14.axiosInstance = 10000
   ∧ (forwarded tr14 = true →
      replies tr14 =
        [(504, VObj [("success", VBool false);
                     ("error", VStr "Backend timeout");
                     ("code", VStr "BACKEND_TIMEOUT");
                     ("path", VStr (originalUrl req))])]))
  ∧ (timeout GatewayV11.proxy_client = 0
     ∧ (forwarded (GatewayV11.createProxyHandler cfg requiresAuth req Silent)
          = true →
        replies (GatewayV11.createProxyHandler cfg requiresAuth req Silent)
          = [])).
Proof.
  intros Hup tr14. split_and!; [done| |done|].
  - subst tr14. unfold GatewayV14.createProxyHandler.
    destruct requiresAuth;
      [destruct (GatewayV14.authenticate cfg req) as [user|st js]|].
    + by rewrite v14_timeout_reported.
    + discriminate.
    + by rewrite v14_timeout_reported.
  - unfold GatewayV11.createProxyHandler.
    destruct requiresAuth;
      [destruct (GatewayV11.authenticate cfg req) as [user|st js]|];
      done.
Qed.

(** The health route of gateway.js, both versions: the reply is always 200;
    [status] and [backend] tell whether the probe succeeded. *)
Lemma gateway_health_always_200 now clients NODE_ENV startTime endTime reg
    uptime up :
  (∃ fields,
     GatewayV11.health now clients NODE_ENV up = [Reply 200 (VObj fields)]
     ∧ own "success" fields = Some (VBool true)
     ∧ own "timestamp" fields = Some (VStr now)
     ∧ own "status" fields =
         Some (VStr (if unreachable_within 3000 up
                     || negb (match up with
                              | Responds _ s _ => default_validateStatus s
                                                  || (s =? 0)
                              | _ => true
                              end)
                     then "degraded" else "healthy"))
     ∧ own "backend" fields =
         Some (VStr (if unreachable_within 3000 up
                     || negb (match up with
                              | Responds _ s _ => default_validateStatus s
                                                  || (s =? 0)
                              | _ => true
                              end)
                     then "disconnected" else "connected")))
  ∧ (∃ fields,
       GatewayV14.health now startTime endTime clients reg uptime up
         = [Reply 200 (VObj fields)]
       ∧ own "success" fields = Some (VBool true)
       ∧ own "status" fields =
           Some (VStr (if unreachable_within 3000 up
                       || negb (match up with
                                | Responds _ s _ => default_validateStatus s
                                                    || (s =? 0)
                                | _ => true
                                end)
                       then "degraded" else "healthy"))
       ∧ own "backend" fields =
           Some (VStr (if unreachable_within 3000 up
                       || negb (match up with
                                | Responds _ s _ => default_validateStatus s
                                                    || (s =? 0)
                                | _ => true
                                end)
                       then "disconnected" else "connected"))).
Proof.
  unfold GatewayV11.health, GatewayV14.health, axios, in_time.
  destruct up as [after status data| |errno text]; simpl.
  - destruct (Z.ltb_spec after 3000) as [Hlt|Hge].
    + rewrite (proj2 (Z.leb_gt 3000 after) Hlt). simpl.
      rewrite (orb_comm (status =? 0)).
      destruct (default_validateStatus status || (status =? 0)); simpl;
        split; eexists; split_and!; reflexivity.
    + rewrite (proj2 (Z.leb_le 3000 after) Hge). simpl.
      split; eexists; split_and!; reflexivity.
  - split; eexists; split_and!; reflexivity.
  - split; eexists; split_and!; reflexivity.
Qed.
End Pipeline.



Lemma protected_without_bearer_rejected_witness :
  let req := Fixture.get_request "/api/widgets" (Some "Basic dXNlcjpwdw==") in
  Platform.replies
    (GatewayV11.createProxyHandler (H:=Fixture.libraries) Fixture.cfg true req
       Platform.Silent)
  = [(401, JS.VObj [("success", JS.VBool false);
                    ("error", JS.VStr "Access denied. No token provided.");
                    ("code", JS.VStr "NO_TOKEN")])].
Proof.
  intros req.
  destruct (@protected_without_bearer_rejected Fixture.libraries Fixture.cfg
              req 0 0 Platform.Silent) as [H11 _]; [reflexivity|].
  destruct H11 as [-> _]; reflexivity.
Defined.

(** ** Start-up *)

(** gateway.js (both versions) and echo (1).js exit with code 1 when the
    secret is not set, and otherwise run with the secret of the environment. *)
Lemma gateway_requires_secret (env : Platform.environment) :
  (env !! "JWT_SECRET" = None →
   GatewayV11.load env = Platform.Exit 1
   ∧ GatewayV14.load env = Platform.Exit 1
   ∧ Echo1.load env = Platform.Exit 1)
  ∧ (∀ c, GatewayV11.load env = Platform.Listening c
          ∨ GatewayV14.load env = Platform.Listening c
          ∨ Echo1.load env = Platform.Listening c →
          env !! "JWT_SECRET" = Some (Platform.JWT_SECRET c)).
Proof.
  unfold GatewayV11.load, GatewayV14.load, Echo1.load, Platform.env_get.
  split.
  - by intros ->.
  - intros c. destruct (env !! "JWT_SECRET") as [s|]; simpl;
      [destruct (String.eqb s "")|]; simpl;
      intros [E|[E|E]]; try discriminate E; by inversion E.
Qed.

(** C3. echo.js loaded with no [JWT_SECRET] in the environment: the server
    listens, and its tokens are verified against the literal of line 18. *)
Theorem echo_starts_on_default_secret :
  Echo.load ∅ =
    Platform.Listening
      (Platform.Config (JS.VNum 3000) "https://echo-backend.up.railway.app"
         "echo-secret-key-change-in-production").
Proof. reflexivity. Qed.

(** C4. Version 1.4 of gateway.js given a token that verifies and carries no
    user id: the middleware calls [next()], the upstream is called with an
    empty [x-user-id], and its answer is relayed. *)
Theorem v14_accepts_token_without_id :
  let req := Fixture.get_request "/schools" (Some "Bearer token-email-only") in
  let tr :=
    GatewayV14.createProxyHandler (H:=Fixture.libraries) Fixture.cfg true req
      1000 1020 (Platform.Responds 20 200 Fixture.ok_body) in
  GatewayV14.public_route (Platform.path req) = false
  ∧ GatewayV14.authenticate (H:=Fixture.libraries) Fixture.cfg req =
      Platform.Next
        (JS.VObj [("id", JS.VUndefined);
                  ("email", JS.VStr "ann@example.org");
                  ("role", JS.VUndefined);
                  ("schoolId", JS.VUndefined)])
  ∧ Platform.sent_header "x-user-id" tr = [Some (JS.VStr "")]
  ∧ Platform.replies tr = [(200, Fixture.ok_body)].
Proof. vm_compute. done. Qed.

(** C5 as stated fails on version 1.1: the forwarder sets no timeout, and a
    forwarded request that the upstream never answers gets no reply. *)
Lemma v11_waits_forever :
  let req := Fixture.get_request "/api/widgets" (Some "Bearer token-userId-5") in
  let tr :=
    GatewayV11.createProxyHandler (H:=Fixture.libraries) Fixture.cfg true req
      Platform.Silent in
  Platform.timeout GatewayV11.proxy_client = 0
  ∧ Platform.forwarded tr = true
  ∧ Platform.replies tr = [].
Proof. vm_compute. done. Qed.

Lemma timeout_reported_where_configured_witness :
  let req := Fixture.get_request "/schools" (Some "Bearer token-userId-5") in
  Platform.replies
    (GatewayV14.createProxyHandler (H:=Fixture.libraries) Fixture.cfg true req
       1000 11001 Platform.Silent)
  = [(504, JS.VObj [("success", JS.VBool false);
                    ("error", JS.VStr "Backend timeout");
                    ("code", JS.VStr "BACKEND_TIMEOUT");
                    ("path", JS.VStr "/schools")])].
Proof.
  intros req.
  destruct (@timeout_reported_where_configured Fixture.libraries Fixture.cfg
              true req 1000 11001 Platform.Silent) as [[_ H14] _];
    [reflexivity|].
  apply H14. reflexivity.
Defined.

(** C6. The health route of echo (1).js when the upstream cannot be reached:
    the reply is 503, [success] is false and [backend] holds the upstream's
    address. *)
Theorem echo1_health_fails_with_upstream :
  Echo1.health Fixture.cfg "2024-01-01T00:00:00.000Z" 0 JS.VUndefined
    (Platform.Unreachable "ECONNREFUSED" "connect ECONNREFUSED")
  = [Platform.Reply 503
       (JS.VObj [("success", JS.VBool false);
                 ("service", JS.VStr "Echo Gateway");
                 ("status", JS.VStr "degraded");
                 ("error", JS.VStr "Backend unreachable");
                 ("backend", JS.VStr "https://echo-backend.up.railway.app")])].
Proof. reflexivity. Qed.

(** ** The public-route matcher *)

Section Matcher.
Import JS Platform.
Context `{Libraries} (cfg : config).








End Matcher.


(** ** WebSocket sessions *)

Section Sessions.
Import JS Platform.
Context `{Libraries} (cfg : config).

Ltac step_connection :=
  match goal with
  | |- context [truthy ?v] =>
      is_var v; destruct (truthy v) eqn:?; simpl
  | |- context [jwt_verify ?t ?s] =>
      destruct (jwt_verify t s) as [?decoded|?e]; simpl
  | |- context [get ?d ?k] => destruct (get d k) as [?x|]; simpl
  | |- context [negb (truthy ?v)] => destruct (truthy v) eqn:?; simpl
  | |- context [toString ?v] => destruct (toString v) as [?key|] eqn:?; simpl
  end.

Ltac solve_connection :=
  unfold prop, toString_call; simpl;
  repeat step_connection;
  first [ by (left; eexists) | by (right; eauto 10) ].

Lemma v11_connection_cases ws token reg :
  (∃ reason, GatewayV11.connection cfg ws token reg =
               (reg, [Close ws 1008 reason], no_listeners))
  ∨ (∃ userId key,
       truthy userId = true ∧ toString userId = Some key
       ∧ GatewayV11.connection cfg ws token reg =
           (JsMap.set key ws reg, [],
            Listeners (Some (GatewayV11.message_listener ws userId))
                      (Some (GatewayV11.close_listener userId)))).
Proof. unfold GatewayV11.connection. solve_connection. Qed.

Lemma v14_connection_cases ws token reg :
  (∃ reason, GatewayV14.connection cfg ws token reg =
               (reg, [Close ws 1008 reason], no_listeners))
  ∨ (∃ userId key,
       truthy userId = true ∧ toString userId = Some key
       ∧ GatewayV14.connection cfg ws token reg =
           (JsMap.set key ws reg, [],
            Listeners (Some (GatewayV14.message_listener ws userId))
                      (Some (GatewayV14.close_listener userId)))).
Proof. unfold GatewayV14.connection. solve_connection. Qed.

Lemma echo1_connection_cases ws token reg :
  (∃ reason, Echo1.connection cfg ws token reg =
               (reg, [Close ws 1008 reason], no_listeners))
  ∨ (∃ userId key,
       truthy userId = true ∧ toString userId = Some key
       ∧ Echo1.connection cfg ws token reg =
           (JsMap.set key ws reg, [],
            Listeners None (Some (Echo1.close_listener userId)))).
Proof. unfold Echo1.connection. solve_connection. Qed.

Lemma echo_connection_cases ws token now reg :
  (∃ reason, Echo.connection cfg ws token now reg =
               (reg, [Close ws 1008 reason], no_listeners))
  ∨ (∃ userId key,
       truthy userId = true ∧ toString userId = Some key
       ∧ Echo.connection cfg ws token now reg =
           (JsMap.set key ws reg,
            Send ws (Echo.welcome now)
              :: Echo.broadcastOnlineUsers now (JsMap.set key ws reg),
            Listeners (Some (Echo.message_listener ws userId))
                      (Some (Echo.close_listener userId)))).
Proof. unfold Echo.connection. solve_connection. Qed.

Lemma closes_refused ws reason : closes ws [Close ws 1008 reason] = true.
Proof. simpl. by rewrite Nat.eqb_refl. Qed.

Lemma closes_broadcast ws now (reg : registry) :
  closes ws (Echo.broadcastOnlineUsers now reg) = false.
Proof.
  unfold Echo.broadcastOnlineUsers, closes.
  generalize (stringify [("type", VStr "online_users");
                         ("users", VArr (VStr <$> JsMap.keys reg));
                         ("timestamp", VStr now)]).
  intros frame. induction reg as [|[k w] reg IH]; simpl; [done | exact IH].
Qed.

Lemma get_some_defined (v : value) (k : string) (x : value) :
  get v k = Some x → v ≠ VUndefined ∧ v ≠ VNull.
Proof. by destruct v. Qed.

(** C8 (amended). In gateway.js, both versions: once a connection has opened
    a session (the handler did not close the socket), a frame that parses to
    a message whose [type] is ["ping"] makes the server send one frame on that
    socket, [{type: "pong", timestamp}] with the time of the reply, and
    nothing else. *)
Theorem ping_answered_by_pong ws token reg data now r message :
  JSON_parse data = Return message →
  get message "type" = Some (VStr "ping") →
  (closes ws (GatewayV11.connection cfg ws token reg).1.2 = false →
   emit_message (GatewayV11.connection cfg ws token reg).2 data now r =
     [Send ws (VObj [("type", VStr "pong"); ("timestamp", VStr now)])])
  ∧ (closes ws (GatewayV14.connection cfg ws token reg).1.2 = false →
     emit_message (GatewayV14.connection cfg ws token reg).2 data now r =
       [Send ws (VObj [("type", VStr "pong"); ("timestamp", VStr now)])]).
Proof.
  intros Hparse Htype. split.
  - destruct (v11_connection_cases ws token reg)
      as [[reason ->]|(userId & key & _ & _ & ->)]; simpl.
    + by rewrite Nat.eqb_refl.
    + intros _. unfold emit_message, GatewayV11.message_listener. simpl.
      rewrite Hparse. simpl. unfold prop. by rewrite Htype.
  - destruct (v14_connection_cases ws token reg)
      as [[reason ->]|(userId & key & _ & _ & ->)]; simpl.
    + by rewrite Nat.eqb_refl.
    + intros _. unfold emit_message, GatewayV14.message_listener. simpl.
      rewrite Hparse. simpl. unfold prop. by rewrite Htype.
Qed.

Lemma get_opt_some (v : value) (k : string) (x : value) :
  get v k = Some x → get_opt v k = x.
Proof. unfold get_opt. by intros ->. Qed.

(** The relay of echo.js looks the receiver up under the string form of
    [receiverId]. *)
Lemma echo_relay_lookup senderId message now (reg : registry) receiverId :
  get message "type" = Some (VStr "private") →
  get message "receiverId" = Some receiverId →
  truthy receiverId = true →
  Echo.handleChatMessage senderId message now reg =
    Return
      match toString receiverId ≫= (fun key => JsMap.get key reg) with
      | Some receiverWs =>
          [Send receiverWs
             (stringify [("type", VStr "message");
                         ("senderId", senderId);
                         ("content", get_opt message "content");
                         ("timestamp", VStr now)])]
      | None => []
      end.
Proof.
  intros Htype Hrecv Htruthy.
  destruct (get_some_defined _ _ _ Htype) as [Hu Hn].
  unfold Echo.handleChatMessage. rewrite !prop_defined by done. simpl.
  rewrite (get_opt_some _ _ _ Htype), (get_opt_some _ _ _ Hrecv). simpl.
  rewrite Htruthy. unfold toString_call. destruct (toString receiverId) as [key|]; simpl;
    [|done].
  by destruct (JsMap.get key reg).
Qed.


Lemma revisions_one_key_per_session r :
  one_key_per_session (Revisions.connect cfg r).
Proof.
  intros ws token now reg. destruct r; simpl.
  - destruct (v11_connection_cases ws token reg)
      as [[reason ->]|(userId & key & _ & Hk & ->)]; simpl.
    + left. by rewrite Nat.eqb_refl.
    + right. exists key. split_and!; try done.
      intros now' r. unfold emit_close, GatewayV11.close_listener. simpl.
      by rewrite Hk.
  - destruct (v14_connection_cases ws token reg)
      as [[reason ->]|(userId & key & _ & Hk & ->)]; simpl.
    + left. by rewrite Nat.eqb_refl.
    + right. exists key. split_and!; try done.
      intros now' r. unfold emit_close, GatewayV14.close_listener. simpl.
      by rewrite Hk.
  - destruct (echo1_connection_cases ws token reg)
      as [[reason ->]|(userId & key & _ & Hk & ->)]; simpl.
    + left. by rewrite Nat.eqb_refl.
    + right. exists key. split_and!; try done.
      intros now' r. unfold emit_close, Echo1.close_listener. simpl.
      by rewrite Hk.
  - destruct (echo_connection_cases ws token now reg)
      as [[reason ->]|(userId & key & _ & Hk & ->)]; simpl.
    + left. by rewrite Nat.eqb_refl.
    + right. exists key. split_and!; try done.
      * apply closes_broadcast.
      * intros now' r. unfold emit_close, Echo.close_listener. simpl.
        by rewrite Hk.
Qed.

(** The invariant of the registry: along every run no key occurs twice, and
    every close listener left on a socket keeps it so. *)
Lemma run_keeps_keys_distinct connect reg ls :
  one_key_per_session connect →
  run connect reg ls →
  JsMap.wf reg
  ∧ List.Forall
      (fun l => ∀ now r, JsMap.wf r → JsMap.wf (emit_close l now r).1) ls.
Proof.
  intros Hkeyed Hrun.
  induction Hrun as [|reg ls ws token now Hrun [IHwf IHls]
                     |reg ls l now Hrun [IHwf IHls] Hin].
  - split; [apply map_wf_empty | constructor].
  - destruct (Hkeyed ws token now reg)
      as [(-> & -> & _)|(key & -> & _ & Hclose)].
    + split; [done|]. constructor; [|done]. by intros now' r.
    + split; [by apply map_wf_set|]. constructor; [|done].
      intros now' r Hr. rewrite Hclose. by apply map_wf_delete.
  - split; [|done]. rewrite List.Forall_forall in IHls. by apply IHls.
Qed.

(** The id that a connection handler resolves from a decoded token. *)
Lemma resolve_id_some decoded a b c v :
  resolve_id decoded [a; b; c] = Some v →
  or (or (get_opt decoded a) (get_opt decoded b)) (get_opt decoded c) = v
  ∧ truthy v = true ∧ decoded ≠ VUndefined ∧ decoded ≠ VNull.
Proof.
  intros Hr.
  assert (decoded ≠ VUndefined ∧ decoded ≠ VNull) as [Hu Hn]
    by (by destruct decoded).
  split_and!; [| |done|done]; revert Hr; unfold resolve_id, or; simpl;
    destruct (truthy (get_opt decoded a)) eqn:E1; simpl; rewrite ?E1;
    try (intros [= <-]; done);
    destruct (truthy (get_opt decoded b)) eqn:E2; simpl; rewrite ?E2;
    try (intros [= <-]; done);
    destruct (truthy (get_opt decoded c)) eqn:E3; simpl; rewrite ?E3;
    try (intros [= <-]; done); done.
Qed.

(** In every revision a token that verifies and carries an id opens a
    session: the socket is stored under the string form of the id that the
    handler resolves from the token, and the close listener deletes that
    key. *)
Lemma connect_opens r ws token now (reg : registry) decoded userId key :
  truthy token = true →
  jwt_verify token (JWT_SECRET cfg) = Return decoded →
  resolve_id decoded (Revisions.id_order r) = Some userId →
  toString userId = Some key →
  (Revisions.connect cfg r ws token now reg).1.1 = JsMap.set key ws reg
  ∧ closes ws (Revisions.connect cfg r ws token now reg).1.2 = false
  ∧ (∀ now' r',
       (emit_close (Revisions.connect cfg r ws token now reg).2 now' r').1
       = JsMap.delete key r').
Proof.
  intros Ht Hv Hr Hk.
  destruct r; simpl in Hr;
    apply resolve_id_some in Hr as (Hor & Htr & Hu & Hn); simpl;
    unfold GatewayV11.connection, GatewayV14.connection, Echo1.connection,
      Echo.connection;
    rewrite Ht, Hv; simpl; rewrite !prop_defined by done; simpl;
    rewrite Hor, Htr; simpl; unfold toString_call; rewrite Hk; simpl;
    (split_and!; [done | done || apply closes_broadcast |]);
    intros now' r'; unfold emit_close; simpl;
    unfold GatewayV11.close_listener, GatewayV14.close_listener,
      Echo1.close_listener, Echo.close_listener; by rewrite Hk.
Qed.

(** C10 (amended). In all four revisions the registry is keyed by the string
    form of the user id.  A token that verifies makes the handler resolve an
    id, in the order of the revision; the socket is stored under
    [userId.toString()] of that id, every other key keeps its socket, and a
    key that was taken keeps its place: the registration replaces the socket
    and adds no entry.  The close listener of the session deletes that same
    key: the entry stored under it is gone and no other entry is touched.
    The relay of echo.js looks the receiver up under
    [receiverId.toString()], so a private message to an id with the same
    string form goes to the socket that was stored.  A later connection
    whose id has the same string form takes the entry over and adds none.
    Along every run no key occurs twice, and the number 5 and the string
    ["5"] name the same key. *)
Theorem registry_keyed_by_string_id r ws token now (reg : registry) decoded
    userId key :
  truthy token = true →
  jwt_verify token (JWT_SECRET cfg) = Return decoded →
  resolve_id decoded (Revisions.id_order r) = Some userId →
  toString userId = Some key →
  let opened := Revisions.connect cfg r ws token now reg in
  (opened.1.1 = JsMap.set key ws reg
   ∧ closes ws opened.1.2 = false
   ∧ JsMap.get key opened.1.1 = Some ws
   ∧ (∀ k, k ≠ key → JsMap.get k opened.1.1 = JsMap.get k reg)
   ∧ (is_Some (JsMap.get key reg) →
      JsMap.keys opened.1.1 = JsMap.keys reg))
  ∧ (∀ now' (r' : registry),
       (emit_close opened.2 now' r').1 = JsMap.delete key r'
       ∧ (JsMap.wf r' →
          JsMap.get key (emit_close opened.2 now' r').1 = None
          ∧ ∀ k, k ≠ key →
                 JsMap.get k (emit_close opened.2 now' r').1 = JsMap.get k r'))
  ∧ (∀ senderId message now' receiverId,
       get message "type" = Some (VStr "private") →
       get message "receiverId" = Some receiverId →
       truthy receiverId = true →
       toString receiverId = Some key →
       Echo.handleChatMessage senderId message now' opened.1.1 =
         Return [Send ws
                   (stringify [("type", VStr "message");
                               ("senderId", senderId);
                               ("content", get_opt message "content");
                               ("timestamp", VStr now')])])
  ∧ (∀ ws' token' now' decoded' userId',
       truthy token' = true →
       jwt_verify token' (JWT_SECRET cfg) = Return decoded' →
       resolve_id decoded' (Revisions.id_order r) = Some userId' →
       toString userId' = Some key →
       let second := Revisions.connect cfg r ws' token' now' opened.1.1 in
       JsMap.get key second.1.1 = Some ws'
       ∧ JsMap.keys second.1.1 = JsMap.keys opened.1.1)
  ∧ (∀ reg0 ls, run (Revisions.connect cfg r) reg0 ls → JsMap.wf reg0)
  ∧ (toString (VNum 5) = Some "5" ∧ toString (VStr "5") = Some "5").
Proof.
  intros Ht Hv Hr Hk opened.
  destruct (connect_opens r ws token now reg decoded userId key Ht Hv Hr Hk)
    as (Hreg & Hopen & Hclose).
  fold opened in Hreg, Hopen, Hclose.
  split_and!; try done.
  - rewrite Hreg. apply map_get_set_eq.
  - intros k Hne. rewrite Hreg. by apply map_get_set_ne.
  - intros [w Hw]. rewrite Hreg, map_keys_set.
    rewrite bool_decide_eq_true_2; [done|].
    apply dec_stable. intros Hnot%map_get_None. by rewrite Hw in Hnot.
  - intros now' r'. split; [apply Hclose|]. intros Hwf. rewrite Hclose.
    split; [by apply map_get_delete_eq|].
    intros k Hne. by apply map_get_delete_ne.
  - intros senderId message now' receiverId Htype Hrecv Htruthy Hkey.
    rewrite (echo_relay_lookup senderId message now' opened.1.1 receiverId)
      by done.
    rewrite Hkey. simpl. by rewrite Hreg, map_get_set_eq.
  - intros ws' token' now' decoded' userId' Ht' Hv' Hr' Hk' second.
    destruct (connect_opens r ws' token' now' opened.1.1 decoded' userId' key
                Ht' Hv' Hr' Hk') as (Hreg' & _).
    fold second in Hreg'. rewrite Hreg'. split; [apply map_get_set_eq|].
    rewrite map_keys_set. rewrite bool_decide_eq_true_2; [done|].
    apply dec_stable. intros Hnot%map_get_None.
    by rewrite Hreg, map_get_set_eq in Hnot.
  - intros reg0 ls Hrun.
    by destruct (run_keeps_keys_distinct _ _ _
                   (revisions_one_key_per_session r) Hrun).
  - simpl. by rewrite Number_toString_safe by lia.
Qed.
End Sessions.

Lemma ping_answered_by_pong_witness :
  Platform.emit_message
    (GatewayV11.connection (H:=Fixture.libraries) Fixture.cfg 1%nat
       (JS.VStr "token-userId-5") []).2
    Fixture.ping_frame "2024-01-01T00:00:00.000Z" [("5", 1%nat)]
  = [Platform.Send 1%nat
       (JS.VObj [("type", JS.VStr "pong");
                 ("timestamp", JS.VStr "2024-01-01T00:00:00.000Z")])].
Proof.
  destruct (@ping_answered_by_pong Fixture.libraries Fixture.cfg 1%nat
              (JS.VStr "token-userId-5") [] Fixture.ping_frame
              "2024-01-01T00:00:00.000Z" [("5", 1%nat)]
              (JS.VObj [("type", JS.VStr "ping")]))
    as [H11 _]; [reflexivity | reflexivity |].
  apply H11. reflexivity.
Defined.

(** C8 as stated fails on echo (1).js: the session opens, the frame parses to
    a ping, and nothing is sent. *)
Lemma echo1_ignores_ping :
  let opened :=
    Echo1.connection (H:=Fixture.libraries) Fixture.cfg 1%nat
      (JS.VStr "token-userId-5") [] in
  Platform.closes 1%nat opened.1.2 = false
  ∧ Platform.JSON_parse (Libraries:=Fixture.libraries) Fixture.ping_frame
    = JS.Return (JS.VObj [("type", JS.VStr "ping")])
  ∧ Platform.emit_message opened.2 Fixture.ping_frame "2024-01-01T00:00:00.000Z"
      opened.1.1 = [].
Proof. by vm_compute. Qed.


(** C10 as stated fails on its last clause.  In echo.js, socket 1 connects
    with the numeric id 5 and socket 2 with the string id ["5"]: the registry
    holds the one entry that the second registration made.  When socket 1
    closes, its listener deletes that entry: socket 2 is open and no longer
    registered. *)
Lemma close_removes_newer_entry :
  let first :=
    Echo.connection (H:=Fixture.libraries) Fixture.cfg 1%nat
      (JS.VStr "token-userId-5") "t0" [] in
  let second :=
    Echo.connection (H:=Fixture.libraries) Fixture.cfg 2%nat
      (JS.VStr "token-userId-5-as-text") "t1" first.1.1 in
  first.1.1 = [("5", 1%nat)]
  ∧ second.1.1 = [("5", 2%nat)]
  ∧ Platform.closes 2%nat second.1.2 = false
  ∧ (Platform.emit_close first.2 "t2" second.1.1).1 = [].
Proof. by vm_compute. Qed.

Lemma registry_keyed_by_string_id_witness :
  let first :=
    Echo.connection (H:=Fixture.libraries) Fixture.cfg 1%nat
      (JS.VStr "token-userId-5") "t0" [("9", 7%nat)] in
  first.1.1 = [("9", 7%nat); ("5", 1%nat)]
  ∧ (Platform.emit_close first.2 "t1" first.1.1).1 = [("9", 7%nat)]
  ∧ Echo.handleChatMessage (H:=Fixture.libraries) (JS.VNum 9)
      (JS.VObj [("type", JS.VStr "private"); ("receiverId", JS.VStr "5");
                ("content", JS.VStr "hello")])
      "t2" first.1.1
    = JS.Return
        [Platform.Send 1%nat
           (JS.VObj [("type", JS.VStr "message"); ("senderId", JS.VNum 9);
                     ("content", JS.VStr "hello");
                     ("timestamp", JS.VStr "t2")])].
Proof.
  intros first.
  destruct (@registry_keyed_by_string_id Fixture.libraries Fixture.cfg
              Revisions.echo 1%nat (JS.VStr "token-userId-5") "t0"
              [("9", 7%nat)] (JS.VObj [("userId", JS.VNum 5)]) (JS.VNum 5)
              "5")
    as ((Hreg & _) & Hclose & Hrelay & _);
    [reflexivity | reflexivity | reflexivity | reflexivity |].
  split_and!.
  - etransitivity; [exact Hreg | reflexivity].
  - etransitivity; [exact (proj1 (Hclose "t1" first.1.1)) | reflexivity].
  - etransitivity;
      [apply (Hrelay (JS.VNum 9) _ "t2" (JS.VStr "5")); reflexivity
      | reflexivity].
Defined.

(** ** More on the request pipeline *)

Section Forwarding.
Import JS Platform Checks.
Context `{Libraries} (cfg : config).

Lemma echo1_token_identity req h decoded :
  Echo1.public_route (path req) = false →
  headers req !! "authorization" = Some h →
  startsWith h "Bearer " = true →
  jwt_verify (bearer_token h) (JWT_SECRET cfg) = Return decoded →
  decoded ≠ VUndefined → decoded ≠ VNull →
  Echo1.authenticate cfg req =
    match resolve_id decoded ["userId"; "id"; "user_id"] with
    | Some v =>
        Next (VObj [("id", v);
                    ("email", get_opt decoded "email");
                    ("role", get_opt decoded "role");
                    ("schoolId", get_opt decoded "schoolId")])
    | None =>
        Answer 401 (VObj [("success", VBool false);
                          ("error", VStr "Invalid token format");
                          ("code", VStr "INVALID_TOKEN")])
    end.
Proof.
  intros Hp Hh Hb Hv Hu Hn. unfold Echo1.authenticate. unfold bearer_token in Hv.
  rewrite Hp, Hh, Hb, (bearer_not_empty h Hb), Hv. simpl.
  rewrite !prop_defined by done. simpl.
  unfold resolve_id, or. simpl.
  destruct (truthy (get_opt decoded "userId")) eqn:E1; simpl;
    rewrite ?E1; [done|].
  destruct (truthy (get_opt decoded "id")) eqn:E2; simpl;
    rewrite ?E2; [done|].
  by destruct (truthy (get_opt decoded "user_id")) eqn:E3; simpl;
    rewrite ?E3.
Qed.

(** X1. A token that fails verification: the reply is 401, with code
    [TOKEN_EXPIRED] when the error is a [TokenExpiredError] and
    [INVALID_TOKEN] for every other error, and the upstream is not called. *)
Theorem failed_verification_rejected req h e startTime endTime up :
  headers req !! "authorization" = Some h →
  startsWith h "Bearer " = true →
  jwt_verify (bearer_token h) (JWT_SECRET cfg) = Throw e →
  let body := VObj [("success", VBool false);
                    ("error", VStr (rejection_text e));
                    ("code", VStr (rejection_code e))] in
  (GatewayV11.public_route (path req) = false →
   GatewayV11.createProxyHandler cfg true req up = [Reply 401 body])
  ∧ (GatewayV14.public_route (path req) = false →
     GatewayV14.createProxyHandler cfg true req startTime endTime up
       = [Reply 401 body])
  ∧ (Echo1.public_route (path req) = false →
     Echo1.createProxyHandler cfg true req up = [Reply 401 body]).
Proof.
  intros Hh Hb Hv body. unfold bearer_token in Hv.
  split_and!; intros Hp.
  - unfold GatewayV11.createProxyHandler, GatewayV11.authenticate.
    rewrite Hp, Hh, Hb, (bearer_not_empty h Hb), Hv. simpl.
    subst body. unfold rejection_text, rejection_code.
    by destruct (String.eqb (name e) "TokenExpiredError").
  - unfold GatewayV14.createProxyHandler, GatewayV14.authenticate.
    rewrite Hp, Hh, Hb, (bearer_not_empty h Hb), Hv. simpl.
    subst body. unfold rejection_text, rejection_code.
    by destruct (String.eqb (name e) "TokenExpiredError").
  - unfold Echo1.createProxyHandler, Echo1.authenticate.
    rewrite Hp, Hh, Hb, (bearer_not_empty h Hb), Hv. simpl.
    subst body. unfold rejection_text, rejection_code.
    by destruct (String.eqb (name e) "TokenExpiredError").
Qed.

Lemma v11_forwards req user up :
  forwards (GatewayV11.proxyRequest cfg req user up)
    = [GatewayV11.proxy_call cfg req user].
Proof.
  unfold GatewayV11.proxyRequest.
  by destruct (axios GatewayV11.proxy_client up) as [[[st d]|e]|].
Qed.

Lemma v14_forwards req user startTime endTime up :
  forwards (GatewayV14.handleProxyRequest cfg req user startTime endTime up)
    = [GatewayV14.proxy_call cfg req user startTime].
Proof.
  unfold GatewayV14.handleProxyRequest.
  destruct (axios GatewayV14.axiosInstance up) as [[[st d]|e]|]; try done.
  simpl. case_bool_decide; [done|].
  by destruct (response e) as [[st d]|].
Qed.

Lemma echo1_forwards req up :
  match Echo1.authenticate cfg req with
  | Next user =>
      forwards (Echo1.createProxyHandler cfg true req up)
        = [Echo1.proxy_call cfg req user]
  | Answer status json =>
      Echo1.createProxyHandler cfg true req up = [Reply status json]
  end
  ∧ forwards (Echo1.createProxyHandler cfg false req up)
      = [Echo1.proxy_call cfg req VUndefined].
Proof.
  unfold Echo1.createProxyHandler.
  destruct (Echo1.authenticate cfg req) as [user|st js];
    by destruct (axios Echo1.proxy_client up) as [[[st' d]|e]|].
Qed.

(** X2. The identity headers of a forwarded request come from the verified
    token.  Version 1.1 and echo (1).js send the first non-empty of
    [userId], [id], [user_id] as [x-user-id] and the [role] claim as
    [x-user-role], and answer 401 [INVALID_TOKEN] without calling the
    upstream when no id is there; version 1.4 sends the first non-empty of
    [user_id], [userId], [id], or the empty string, and the role or the
    empty string. *)
Theorem identity_headers_from_token req h decoded startTime endTime up :
  headers req !! "authorization" = Some h →
  startsWith h "Bearer " = true →
  jwt_verify (bearer_token h) (JWT_SECRET cfg) = Return decoded →
  decoded ≠ VUndefined → decoded ≠ VNull →
  let tr11 := GatewayV11.createProxyHandler cfg true req up in
  let tr14 :=
    GatewayV14.createProxyHandler cfg true req startTime endTime up in
  let tre1 := Echo1.createProxyHandler cfg true req up in
  let invalid := VObj [("success", VBool false);
                       ("error", VStr "Invalid token format");
                       ("code", VStr "INVALID_TOKEN")] in
  (GatewayV11.public_route (path req) = false →
   match resolve_id decoded ["userId"; "id"; "user_id"] with
   | Some v =>
       sent_header "x-user-id" tr11 = [Some v]
       ∧ sent_header "x-user-role" tr11 = [Some (get_opt decoded "role")]
       ∧ sent_header "x-user-id" tre1 = [Some v]
       ∧ sent_header "x-user-role" tre1 = [Some (get_opt decoded "role")]
   | None => tr11 = [Reply 401 invalid] ∧ tre1 = [Reply 401 invalid]
   end)
  ∧ (GatewayV14.public_route (path req) = false →
     sent_header "x-user-id" tr14 =
       [Some (default (VStr "")
                (resolve_id decoded ["user_id"; "userId"; "id"]))]
     ∧ sent_header "x-user-role" tr14 =
         [Some (or (get_opt decoded "role") (VStr ""))]).
Proof.
  intros Hh Hb Hv Hu Hn tr11 tr14 tre1 invalid. split; intros Hp.
  - subst tr11 tre1.
    unfold GatewayV11.createProxyHandler.
    rewrite (v11_token_identity cfg req h decoded Hp Hh Hb Hv Hu Hn).
    pose proof (echo1_forwards req up) as [He1 _].
    rewrite (echo1_token_identity req h decoded Hp Hh Hb Hv Hu Hn) in He1.
    destruct (resolve_id decoded ["userId"; "id"; "user_id"]) as [v|];
      [|by rewrite He1].
    unfold sent_header. rewrite v11_forwards, He1. simpl.
    rewrite !lookup_insert_ne by done. rewrite !lookup_insert_eq.
    rewrite !lookup_insert_ne by done. by rewrite !lookup_insert_eq.
  - subst tr14. unfold GatewayV14.createProxyHandler.
    rewrite (v14_token_identity cfg req h decoded Hp Hh Hb Hv Hu Hn).
    unfold sent_header. rewrite v14_forwards. simpl.
    rewrite !lookup_insert_ne by done. rewrite !lookup_insert_eq.
    rewrite !lookup_insert_ne by done. rewrite !lookup_insert_eq.
    split; [|done]. do 2 f_equal. unfold get_opt at 1. simpl.
    unfold resolve_id, or. simpl.
    destruct (truthy (get_opt decoded "user_id")) eqn:E1; simpl;
      rewrite ?E1; [done|].
    destruct (truthy (get_opt decoded "userId")) eqn:E2; simpl;
      rewrite ?E2; [done|].
    by destruct (truthy (get_opt decoded "id")) eqn:E3; simpl; rewrite ?E3.
Qed.

(** X3. Every header of the client other than the ones the forwarder sets
    reaches the upstream unchanged, the [Authorization] header included;
    [host] is replaced by the host of the backend. *)
Theorem client_headers_forwarded req user startTime name :
  (name ∉ ["host"; "x-forwarded-by"; "x-user-role"; "x-user-id"] →
   out_headers (GatewayV11.proxy_call cfg req user) !! name
     = VStr <$> headers req !! name
   ∧ out_headers (Echo1.proxy_call cfg req user) !! name
     = VStr <$> headers req !! name)
  ∧ (name ∉ ["connection"; "host"; "x-request-start-time"; "x-forwarded-by";
             "x-user-role"; "x-user-id"] →
     out_headers (GatewayV14.proxy_call cfg req user startTime) !! name
       = VStr <$> headers req !! name)
  ∧ out_headers (GatewayV11.proxy_call cfg req user) !! "host"
      = Some (VStr (URL_host (PYTHON_BACKEND cfg)))
  ∧ out_headers (GatewayV14.proxy_call cfg req user startTime) !! "host"
      = Some (VStr (URL_host (PYTHON_BACKEND cfg)))
  ∧ out_headers (Echo1.proxy_call cfg req user) !! "host"
      = Some (VStr (URL_host (PYTHON_BACKEND cfg))).
Proof.
  split_and!.
  - rewrite !not_elem_of_cons. intros (? & ? & ? & ? & _). simpl.
    rewrite !lookup_insert_ne by congruence. by rewrite lookup_fmap.
  - rewrite !not_elem_of_cons. intros (? & ? & ? & ? & ? & ? & _). simpl.
    rewrite !lookup_insert_ne by congruence. by rewrite lookup_fmap.
  - simpl. by rewrite lookup_insert_eq.
  - simpl. rewrite lookup_insert_ne by done. by rewrite lookup_insert_eq.
  - simpl. by rewrite lookup_insert_eq.
Qed.

(** X4. A transport failure (connection refused, name not found, reset) is
    answered 502 with code [BACKEND_ERROR] and the request path; version 1.4
    adds the elapsed time, and reports a failure whose system code is
    [ECONNABORTED] as a timeout, 504 [BACKEND_TIMEOUT]. *)
Theorem transport_failure_reported req user startTime endTime errno text :
  let up := Unreachable errno text in
  let unavailable :=
    [("success", VBool false);
     ("error", VStr "Backend service unavailable");
     ("code", VStr "BACKEND_ERROR");
     ("path", VStr (originalUrl req))] in
  replies (GatewayV11.proxyRequest cfg req user up)
    = [(502, VObj unavailable)]
  ∧ replies (Echo1.createProxyHandler cfg false req up)
    = [(502, VObj unavailable)]
  ∧ replies (GatewayV14.handleProxyRequest cfg req user startTime endTime up)
    = [if bool_decide (errno = "ECONNABORTED")
       then (504, VObj [("success", VBool false);
                        ("error", VStr "Backend timeout");
                        ("code", VStr "BACKEND_TIMEOUT");
                        ("path", VStr (originalUrl req))])
       else (502, VObj (unavailable
                          ++ [("duration", VNum (endTime - startTime))]))].
Proof.
  intros up unavailable. split_and!; [done|done|].
  unfold GatewayV14.handleProxyRequest. simpl.
  destruct (decide (errno = "ECONNABORTED")) as [->|Hne].
  - done.
  - rewrite !bool_decide_eq_false_2; [done|done|congruence].
Qed.

Lemma v11_reply_count req user up :
  (length (replies (GatewayV11.proxyRequest cfg req user up)) <= 1)%nat
  ∧ (replies (GatewayV11.proxyRequest cfg req user up) = [] ↔ up = Silent).
Proof.
  unfold GatewayV11.proxyRequest, axios, in_time.
  destruct up as [after st d| |errno text]; simpl.
  - rewrite orb_true_r. simpl. split; [lia | by split].
  - split; [lia | by split].
  - split; [lia | by split].
Qed.

Lemma echo1_reply_count req up :
  (length (replies (Echo1.createProxyHandler cfg false req up)) <= 1)%nat
  ∧ (replies (Echo1.createProxyHandler cfg false req up) = [] ↔ up = Silent).
Proof.
  unfold Echo1.createProxyHandler, axios, in_time.
  destruct up as [after st d| |errno text]; simpl.
  - rewrite orb_true_r. simpl. split; [lia | by split].
  - split; [lia | by split].
  - split; [lia | by split].
Qed.

Lemma v14_reply_count req user startTime endTime up :
  length (replies
            (GatewayV14.handleProxyRequest cfg req user startTime endTime up))
    = 1%nat.
Proof.
  unfold GatewayV14.handleProxyRequest, axios, in_time.
  destruct up as [after st d| |errno text]; simpl.
  - destruct (after <? 10000); simpl; [by rewrite orb_true_r | done].
  - done.
  - case_bool_decide; done.
Qed.

(** X5. A request gets at most one call to the upstream and at most one reply:
    nothing is retried.  Version 1.4 always replies exactly once.  Version
    1.1 and echo (1).js leave a request unanswered in one case only: the
    request was forwarded and the upstream never answers. *)
Theorem one_call_one_reply requiresAuth req startTime endTime up :
  let tr11 := GatewayV11.createProxyHandler cfg requiresAuth req up in
  let tr14 :=
    GatewayV14.createProxyHandler cfg requiresAuth req startTime endTime up
  in
  let tre1 := Echo1.createProxyHandler cfg requiresAuth req up in
  ((length (forwards tr11) <= 1)%nat ∧ (length (replies tr11) <= 1)%nat
   ∧ (replies tr11 = [] ↔ forwarded tr11 = true ∧ up = Silent))
  ∧ ((length (forwards tr14) <= 1)%nat ∧ length (replies tr14) = 1%nat)
  ∧ ((length (forwards tre1) <= 1)%nat ∧ (length (replies tre1) <= 1)%nat
     ∧ (replies tre1 = [] ↔ forwarded tre1 = true ∧ up = Silent)).
Proof.
  intros tr11 tr14 tre1. split_and!.
  - subst tr11. unfold GatewayV11.createProxyHandler.
    destruct requiresAuth;
      [destruct (GatewayV11.authenticate cfg req)|];
      rewrite ?v11_forwards; simpl; lia.
  - subst tr11. unfold GatewayV11.createProxyHandler.
    destruct requiresAuth;
      [destruct (GatewayV11.authenticate cfg req)|];
      try apply v11_reply_count; simpl; lia.
  - subst tr11. unfold GatewayV11.createProxyHandler, forwarded.
    destruct requiresAuth;
      [destruct (GatewayV11.authenticate cfg req)|].
    + rewrite v11_forwards, (proj2 (v11_reply_count _ _ _)). naive_solver.
    + simpl. naive_solver.
    + rewrite v11_forwards, (proj2 (v11_reply_count _ _ _)). naive_solver.
  - subst tr14. unfold GatewayV14.createProxyHandler.
    destruct requiresAuth;
      [destruct (GatewayV14.authenticate cfg req)|];
      rewrite ?v14_forwards; simpl; lia.
  - subst tr14. unfold GatewayV14.createProxyHandler.
    destruct requiresAuth;
      [destruct (GatewayV14.authenticate cfg req)|];
      try apply v14_reply_count; done.
  - subst tre1. destruct (echo1_forwards req up) as [Ht Hf].
    destruct requiresAuth; [|rewrite Hf; simpl; lia].
    destruct (Echo1.authenticate cfg req); rewrite Ht; simpl; lia.
  - subst tre1. destruct requiresAuth; [|apply echo1_reply_count].
    unfold Echo1.createProxyHandler.
    destruct (Echo1.authenticate cfg req) as [user|st js]; [|simpl; lia].
    unfold axios, in_time.
    destruct up as [after st d| |errno text]; simpl; try lia.
    rewrite orb_true_r. simpl. lia.
  - subst tre1. unfold forwarded.
    destruct (echo1_forwards req up) as [Ht Hf].
    destruct requiresAuth.
    + destruct (Echo1.authenticate cfg req) as [user|st js] eqn:Ha.
      * rewrite Ht. unfold Echo1.createProxyHandler. rewrite Ha.
        unfold axios, in_time.
        destruct up as [after st d| |errno text]; simpl;
          rewrite ?orb_true_r; simpl; naive_solver.
      * rewrite Ht. simpl. naive_solver.
    + rewrite Hf, (proj2 (echo1_reply_count _ _)). naive_solver.
Qed.

(** X6. On a path that the matcher classes as public the handler does not look
    at the [Authorization] header: the request is forwarded as by a route
    without authentication, with no identity attached, even when it carries
    a valid token.  In version 1.4 this holds for every path whose lower-case
    form starts with [/health]. *)
Theorem public_path_needs_no_token req startTime endTime up :
  (GatewayV11.public_route (path req) = true →
   GatewayV11.createProxyHandler cfg true req up
     = GatewayV11.createProxyHandler cfg false req up)
  ∧ (Echo1.public_route (path req) = true →
     Echo1.createProxyHandler cfg true req up
       = Echo1.createProxyHandler cfg false req up)
  ∧ (GatewayV14.public_route (path req) = true →
     GatewayV14.createProxyHandler cfg true req startTime endTime up
       = GatewayV14.createProxyHandler cfg false req startTime endTime up)
  ∧ (startsWith (toLowerCase (path req)) "/health" = true →
     GatewayV14.createProxyHandler cfg true req startTime endTime up
       = GatewayV14.createProxyHandler cfg false req startTime endTime up).
Proof.
  split_and!.
  - intros Hp. unfold GatewayV11.createProxyHandler, GatewayV11.authenticate.
    by rewrite Hp.
  - intros Hp. unfold Echo1.createProxyHandler, Echo1.authenticate.
    by rewrite Hp.
  - intros Hp. unfold GatewayV14.createProxyHandler, GatewayV14.authenticate.
    by rewrite Hp.
  - intros Hp. unfold GatewayV14.createProxyHandler, GatewayV14.authenticate.
    unfold GatewayV14.public_route. by rewrite Hp, orb_true_r.
Qed.
End Forwarding.

(** ** More on the WebSocket sessions *)

Section Presence.
Import JS Platform Checks.
Context `{Libraries} (cfg : config).

Lemma resolve_id_none decoded a b c :
  resolve_id decoded [a; b; c] = None →
  truthy (get_opt decoded a) = false
  ∧ truthy (get_opt decoded b) = false
  ∧ truthy (get_opt decoded c) = false.
Proof.
  unfold resolve_id. simpl.
  destruct (truthy (get_opt decoded a)); [done|].
  destruct (truthy (get_opt decoded b)); [done|].
  by destruct (truthy (get_opt decoded c)).
Qed.

(** X7. A socket that presents no token, a token that fails verification, or a
    token that verifies and carries no user id is closed with code 1008 in
    every revision: it gets no listeners and the registry stays as it was. *)
Theorem unauthenticated_socket_refused r ws token now (reg : registry) :
  truthy token = false
  ∨ (∃ e, jwt_verify token (JWT_SECRET cfg) = Throw e)
  ∨ (∃ decoded,
       jwt_verify token (JWT_SECRET cfg) = Return decoded
       ∧ decoded ≠ VUndefined ∧ decoded ≠ VNull
       ∧ resolve_id decoded ["userId"; "id"; "user_id"] = None) →
  ∃ reason,
    Revisions.connect cfg r ws token now reg
      = (reg, [Close ws 1008 reason], no_listeners).
Proof.
  intros Hcase.
  assert (truthy token = false
          ∨ truthy token = true
            ∧ ((∃ e, jwt_verify token (JWT_SECRET cfg) = Throw e)
               ∨ (∃ decoded,
                    jwt_verify token (JWT_SECRET cfg) = Return decoded
                    ∧ decoded ≠ VUndefined ∧ decoded ≠ VNull
                    ∧ resolve_id decoded ["userId"; "id"; "user_id"] = None)))
    as [Ht|[Ht [[e He]|(decoded & Hd & Hu & Hn & Hr)]]].
  { destruct (truthy token); [right; split; [done|]|by left].
    by destruct Hcase as [|[|]]; [|left|right]. }
  - destruct r; simpl;
      unfold GatewayV11.connection, GatewayV14.connection, Echo1.connection,
        Echo.connection; rewrite Ht; simpl; by eexists.
  - destruct r; simpl;
      unfold GatewayV11.connection, GatewayV14.connection, Echo1.connection,
        Echo.connection; rewrite Ht, He; simpl; by eexists.
  - apply resolve_id_none in Hr as (H1 & H2 & H3).
    destruct r; simpl;
      unfold GatewayV11.connection, GatewayV14.connection, Echo1.connection,
        Echo.connection; rewrite Ht, Hd; simpl;
      rewrite !prop_defined by done; simpl; unfold or;
      rewrite ?H1, ?H2, ?H3; simpl; rewrite ?H1, ?H2, ?H3; simpl;
      by eexists.
Qed.

(** X8. A frame that does not parse, or that parses to [null], is answered on
    the same socket with one frame [{type: "error", error: "Invalid message
    format"}]; nothing else is sent and the session stays as it is. *)
Theorem malformed_frame_answered ws userId data now (reg : registry) :
  (∃ e, JSON_parse data = Throw e) ∨ JSON_parse data = Return VNull →
  let answer :=
    [Send ws (VObj [("type", VStr "error");
                    ("error", VStr "Invalid message format")])] in
  GatewayV11.message_listener ws userId data now reg = answer
  ∧ GatewayV14.message_listener ws userId data now reg = answer
  ∧ Echo.message_listener ws userId data now reg = answer.
Proof.
  intros [[e He]|Hnull] answer;
    unfold GatewayV11.message_listener, GatewayV14.message_listener,
      Echo.message_listener; rewrite ?He, ?Hnull; by simpl.
Qed.

(** X9. Frames that parse and that the listener has no use for get no answer
    at all: in gateway.js every type other than ["ping"], in echo.js every
    type other than ["private"] and every private message whose
    [receiverId] is missing or empty. *)
Theorem frames_without_effect ws userId data now (reg : registry) message t
    receiverId :
  JSON_parse data = Return message →
  get message "type" = Some t →
  get message "receiverId" = Some receiverId →
  (is_string t "ping" = false →
   GatewayV11.message_listener ws userId data now reg = []
   ∧ GatewayV14.message_listener ws userId data now reg = [])
  ∧ (is_string t "private" = false ∨ truthy receiverId = false →
     Echo.message_listener ws userId data now reg = []).
Proof.
  intros Hparse Htype Hrecv.
  destruct (get_some_defined _ _ _ Htype) as [Hu Hn]. split.
  - intros Hping.
    unfold GatewayV11.message_listener, GatewayV14.message_listener.
    rewrite Hparse. simpl. unfold prop. rewrite Htype. simpl.
    by rewrite Hping.
  - intros Hcase. unfold Echo.message_listener, Echo.handleChatMessage.
    rewrite Hparse. simpl. rewrite !prop_defined by done. simpl.
    rewrite (get_opt_some _ _ _ Htype), (get_opt_some _ _ _ Hrecv).
    destruct Hcase as [-> | ->]; [done | by rewrite andb_false_r].
Qed.

Lemma map_delete_set (m : registry) k v :
  JsMap.delete k (JsMap.set k v m) = JsMap.delete k m.
Proof.
  induction m as [|[k' v'] m IH]; simpl.
  - by rewrite String.eqb_refl.
  - destruct (String.eqb_spec k k') as [->|Hne]; simpl.
    + by rewrite String.eqb_refl.
    + destruct (String.eqb_spec k k'); [done|]. by rewrite IH.
Qed.

Lemma map_delete_absent (m : registry) k :
  JsMap.get k m = None → JsMap.delete k m = m.
Proof.
  induction m as [|[k' v'] m IH]; simpl; [done|].
  destruct (String.eqb k k'); [done|]. intros Hg. by rewrite IH.
Qed.

(** Along a run every close listener either does nothing (the connection
    was refused) or deletes one fixed key. *)
Lemma run_close_listeners connect (reg : registry) ls :
  one_key_per_session connect →
  run connect reg ls →
  List.Forall
    (fun l => (∀ now r, (emit_close l now r).1 = r)
              ∨ ∃ key, ∀ now r, (emit_close l now r).1 = JsMap.delete key r)
    ls.
Proof.
  intros Hkeyed Hrun.
  induction Hrun as [|reg ls ws token now Hrun IH|reg ls l now Hrun IH Hin];
    [constructor| |done].
  constructor; [|done].
  destruct (Hkeyed ws token now reg)
    as [(_ & -> & _)|(key & _ & _ & Hclose)].
  - by left.
  - right. by exists key.
Qed.

(** Every connection is refused, or its token verifies and carries an id
    that has a string form. *)
Lemma connect_cases r ws token now (reg : registry) :
  (∃ reason, Revisions.connect cfg r ws token now reg
             = (reg, [Close ws 1008 reason], no_listeners))
  ∨ ∃ decoded userId key,
      truthy token = true
      ∧ jwt_verify token (JWT_SECRET cfg) = Return decoded
      ∧ resolve_id decoded (Revisions.id_order r) = Some userId
      ∧ toString userId = Some key.
Proof.
  destruct (truthy token) eqn:Ht.
  2: { left. destruct r; simpl;
         unfold GatewayV11.connection, GatewayV14.connection,
           Echo1.connection, Echo.connection; rewrite Ht; simpl; by eexists. }
  destruct (jwt_verify token (JWT_SECRET cfg)) as [decoded|e] eqn:Hv.
  2: { left. destruct r; simpl;
         unfold GatewayV11.connection, GatewayV14.connection,
           Echo1.connection, Echo.connection; rewrite Ht, Hv; simpl;
         by eexists. }
  destruct (resolve_id decoded (Revisions.id_order r)) as [userId|] eqn:Hr.
  - destruct (toString userId) as [key|] eqn:Hk;
      [right; by exists decoded, userId, key|].
    left. destruct r; simpl in Hr;
      apply resolve_id_some in Hr as (Hor & Htr & Hu & Hn); simpl;
      unfold GatewayV11.connection, GatewayV14.connection, Echo1.connection,
        Echo.connection;
      rewrite Ht, Hv; simpl; rewrite !prop_defined by done; simpl;
      rewrite Hor, Htr; simpl; unfold toString_call; rewrite Hk; simpl;
      by eexists.
  - left.
    destruct (get decoded "userId") as [x|] eqn:Hx.
    + destruct (get_some_defined _ _ _ Hx) as [Hu Hn].
      destruct r; simpl in Hr; apply resolve_id_none in Hr as (H1 & H2 & H3);
        simpl;
        unfold GatewayV11.connection, GatewayV14.connection,
          Echo1.connection, Echo.connection;
        rewrite Ht, Hv; simpl; rewrite !prop_defined by done; simpl;
        unfold or; rewrite ?H1, ?H2, ?H3; simpl; rewrite ?H1, ?H2, ?H3; simpl;
        by eexists.
    + assert (∀ k, prop decoded k = Throw TypeError) as Hthrow.
      { intros k. unfold prop. by destruct decoded. }
      destruct r; simpl;
        unfold GatewayV11.connection, GatewayV14.connection,
          Echo1.connection, Echo.connection;
        rewrite Ht, Hv; simpl; rewrite !Hthrow; simpl; by eexists.
Qed.

(** X10. A connection changes the registry at one key at most: the string form
    of the id of its token, where it puts the connecting socket.  A close
    changes it at one key at most, which it empties.  Every other key keeps
    the socket it had. *)
Theorem registry_changes_one_key r (reg : registry) ls ws token now l now' :
  run (Revisions.connect cfg r) reg ls →
  In l ls →
  ((Revisions.connect cfg r ws token now reg).1.1 = reg
   ∨ ∃ decoded userId key,
       jwt_verify token (JWT_SECRET cfg) = Return decoded
       ∧ resolve_id decoded (Revisions.id_order r) = Some userId
       ∧ toString userId = Some key
       ∧ JsMap.get key (Revisions.connect cfg r ws token now reg).1.1
         = Some ws
       ∧ ∀ k, k ≠ key →
              JsMap.get k (Revisions.connect cfg r ws token now reg).1.1
              = JsMap.get k reg)
  ∧ ((emit_close l now' reg).1 = reg
     ∨ ∃ key,
         JsMap.get key (emit_close l now' reg).1 = None
         ∧ ∀ k, k ≠ key →
                JsMap.get k (emit_close l now' reg).1 = JsMap.get k reg).
Proof.
  intros Hrun Hin.
  pose proof (revisions_one_key_per_session cfg r) as Hkeyed. split.
  - destruct (connect_cases r ws token now reg)
      as [[reason ->]|(decoded & userId & key & Ht & Hv & Hr & Hk)];
      [by left|].
    destruct (connect_opens cfg r ws token now reg decoded userId key
                Ht Hv Hr Hk) as (-> & _).
    right. exists decoded, userId, key. split_and!; try done.
    + apply map_get_set_eq.
    + intros k Hne. by apply map_get_set_ne.
  - destruct (run_keeps_keys_distinct _ _ _ Hkeyed Hrun) as [Hwf _].
    pose proof (run_close_listeners _ _ _ Hkeyed Hrun) as Hls.
    rewrite List.Forall_forall in Hls.
    destruct (Hls l Hin) as [-> | [key ->]]; [by left|].
    right. exists key. split; [by apply map_get_delete_eq|].
    intros k Hne. by apply map_get_delete_ne.
Qed.

(** X11. A socket that connects with a token that verifies and then closes
    leaves the registry without the key of its user's id.  When that id was
    not registered before, the registry is as it was; when an earlier
    session was registered under it, that session's entry is gone as well;
    every other key keeps its socket. *)
Theorem open_then_close r ws token now now' (reg : registry) decoded userId
    key :
  truthy token = true →
  jwt_verify token (JWT_SECRET cfg) = Return decoded →
  resolve_id decoded (Revisions.id_order r) = Some userId →
  toString userId = Some key →
  let opened := Revisions.connect cfg r ws token now reg in
  let closed := (emit_close opened.2 now' opened.1.1).1 in
  closed = JsMap.delete key reg
  ∧ (JsMap.get key reg = None → closed = reg)
  ∧ (JsMap.wf reg →
     JsMap.get key closed = None
     ∧ ∀ k, k ≠ key → JsMap.get k closed = JsMap.get k reg).
Proof.
  intros Ht Hv Hr Hk opened closed. subst closed opened.
  destruct (connect_opens cfg r ws token now reg decoded userId key
              Ht Hv Hr Hk) as (Hreg & _ & Hclose).
  rewrite Hclose, Hreg, map_delete_set. split_and!; [done| |].
  - apply map_delete_absent.
  - intros Hwf. split; [by apply map_get_delete_eq|].
    intros k Hne. by apply map_get_delete_ne.
Qed.

(** X12. Presence in echo.js.  When a session opens, the newcomer is sent the
    welcome frame first, and then every registered socket, the newcomer
    included, is sent one and the same list of online users, which names the
    newcomer.  When it closes, the sockets that remain are sent the list
    without its key. *)
Theorem echo_presence ws token now now' (reg r : registry) :
  let opened := Echo.connection cfg ws token now reg in
  closes ws opened.1.2 = false →
  JsMap.wf r →
  ∃ key,
    JsMap.get key opened.1.1 = Some ws
    ∧ opened.1.2 =
        Send ws (Echo.welcome now)
          :: Echo.broadcastOnlineUsers now opened.1.1
    ∧ In (Send ws
            (VObj [("type", VStr "online_users");
                   ("users", VArr (VStr <$> JsMap.keys opened.1.1));
                   ("timestamp", VStr now)]))
         (Echo.broadcastOnlineUsers now opened.1.1)
    ∧ In key (JsMap.keys opened.1.1)
    ∧ length (Echo.broadcastOnlineUsers now opened.1.1)
        = length opened.1.1
    ∧ emit_close opened.2 now' r
        = (JsMap.delete key r,
           Echo.broadcastOnlineUsers now' (JsMap.delete key r))
    ∧ ¬ In key (JsMap.keys (JsMap.delete key r)).
Proof.
  intros opened Hopen Hwf. subst opened.
  destruct (echo_connection_cases cfg ws token now reg)
    as [[reason Hc]|(userId & key & _ & Hk & Hc)]; rewrite Hc in *.
  { simpl in Hopen. by rewrite Nat.eqb_refl in Hopen. }
  exists key. simpl.
  assert (JsMap.get key (JsMap.set key ws reg) = Some ws) as Hget
    by apply map_get_set_eq.
  split_and!; try done.
  - unfold Echo.broadcastOnlineUsers.
    generalize (JsMap.keys (JsMap.set key ws reg)). intros ks.
    revert Hget. generalize (JsMap.set key ws reg). intros m.
    induction m as [|[k' w'] m IH]; simpl; [done|].
    destruct (String.eqb key k'); [intros [= ->]; by left|].
    intros Hg. right. by apply IH.
  - apply list_elem_of_In. apply dec_stable.
    intros Hnot%map_get_None. by rewrite Hget in Hnot.
  - unfold Echo.broadcastOnlineUsers. by rewrite length_fmap.
  - unfold emit_close, Echo.close_listener. simpl. by rewrite Hk.
  - intros Hin%list_elem_of_In. revert Hin. apply map_get_None.
    by apply map_get_delete_eq.
Qed.
End Presence.

(** ** Start-up and health *)

Section Operation.
Import JS Platform Checks.
Context `{Libraries} (cfg : config).

(** X13. With [JWT_SECRET] set to a non-empty string the four revisions start
    with the same constants: that secret, [PORT] or 3000, [PYTHON_BACKEND]
    or the Railway address.  An empty [JWT_SECRET] counts as none: gateway.js
    and echo (1).js exit with code 1, echo.js runs on its literal. *)
Theorem startup_configuration (env : environment) (s : string) :
  env !! "JWT_SECRET" = Some s →
  if decide (s = "") then
    GatewayV11.load env = Exit 1
    ∧ GatewayV14.load env = Exit 1
    ∧ Echo1.load env = Exit 1
    ∧ Echo.load env =
        Listening (Config (port_of env) (backend_of env)
                     "echo-secret-key-change-in-production")
  else
    GatewayV11.load env = Listening (Config (port_of env) (backend_of env) s)
    ∧ GatewayV14.load env
      = Listening (Config (port_of env) (backend_of env) s)
    ∧ Echo1.load env = Listening (Config (port_of env) (backend_of env) s)
    ∧ Echo.load env = Listening (Config (port_of env) (backend_of env) s).
Proof.
  intros Hs.
  unfold GatewayV11.load, GatewayV14.load, Echo1.load, Echo.load, env_get, or.
  rewrite Hs. simpl.
  destruct (decide (s = "")) as [->|Hne]; [done|].
  by rewrite (proj2 (String.eqb_neq s "") Hne).
Qed.

(** X14. The health route of gateway.js always replies, once, with status 200,
    whatever the upstream does: [status] is ["healthy"] and [backend] is
    ["connected"] exactly when the upstream answered the probe within 3000
    ms with a 2xx status, and ["degraded"] and ["disconnected"] otherwise. *)
Theorem gateway_health_reply now clients NODE_ENV startTime endTime
    (reg : registry) uptime up :
  ∃ fields11 fields14,
    GatewayV11.health now clients NODE_ENV up = [Reply 200 (VObj fields11)]
    ∧ GatewayV14.health now startTime endTime clients reg uptime up
      = [Reply 200 (VObj fields14)]
    ∧ own "success" fields11 = Some (VBool true)
    ∧ own "success" fields14 = Some (VBool true)
    ∧ own "status" fields11
      = Some (VStr (if probe_ok 3000 up then "healthy" else "degraded"))
    ∧ own "status" fields14
      = Some (VStr (if probe_ok 3000 up then "healthy" else "degraded"))
    ∧ own "backend" fields11
      = Some (VStr (if probe_ok 3000 up then "connected"
                    else "disconnected"))
    ∧ own "backend" fields14
      = Some (VStr (if probe_ok 3000 up then "connected"
                    else "disconnected"))
    ∧ own "gateway_response_time" fields14
      = Some (VNum (endTime - startTime)).
Proof.
  unfold GatewayV11.health, GatewayV14.health, axios, in_time, probe_ok.
  destruct up as [after status data| |errno text]; simpl.
  - destruct (after <? 3000); simpl;
      [destruct ((status =? 0) || default_validateStatus status); simpl|];
      do 2 eexists; split_and!; reflexivity.
  - do 2 eexists; split_and!; reflexivity.
  - do 2 eexists; split_and!; reflexivity.
Qed.

(** X15. The health route of echo (1).js replies once: 200 with [success: true]
    when the upstream answered the probe within 5000 ms with a 2xx status,
    503 with [success: false] in every other case. *)
Theorem echo1_health_reply now clients NODE_ENV up :
  ∃ fields,
    Echo1.health cfg now clients NODE_ENV up
      = [Reply (if probe_ok 5000 up then 200 else 503) (VObj fields)]
    ∧ own "success" fields = Some (VBool (probe_ok 5000 up))
    ∧ own "status" fields
      = Some (VStr (if probe_ok 5000 up then "healthy" else "degraded")).
Proof.
  unfold Echo1.health, axios, in_time, probe_ok.
  destruct up as [after status data| |errno text]; simpl.
  - destruct (after <? 5000); simpl;
      [destruct ((status =? 0) || default_validateStatus status); simpl|];
      eexists; split_and!; reflexivity.
  - eexists; split_and!; reflexivity.
  - eexists; split_and!; reflexivity.
Qed.
End Operation.

(** ** The HTTP routes of echo.js *)

Section EchoRoutes.
Import JS Platform Checks.
Context `{Libraries} (cfg : config).

Lemma echo_token_identity req h decoded :
  Echo.public_route (path req) = false →
  headers req !! "authorization" = Some h →
  startsWith h "Bearer " = true →
  jwt_verify (bearer_token h) (JWT_SECRET cfg) = Return decoded →
  decoded ≠ VUndefined → decoded ≠ VNull →
  Echo.authenticate cfg req =
    match resolve_id decoded ["userId"; "id"; "user_id"] with
    | Some v =>
        Next (VObj [("userId", v);
                    ("email", get_opt decoded "email");
                    ("role", get_opt decoded "role")])
    | None =>
        Answer 401
          (VObj [("success", VBool false);
                 ("error", VStr "Invalid token: missing user identification");
                 ("code", VStr "INVALID_TOKEN_FORMAT")])
    end.
Proof.
  intros Hp Hh Hb Hv Hu Hn. unfold Echo.authenticate. unfold bearer_token in Hv.
  rewrite Hp, Hh, Hb, (bearer_not_empty h Hb), Hv. simpl.
  rewrite !prop_defined by done. simpl.
  unfold resolve_id, or. simpl.
  destruct (truthy (get_opt decoded "userId")) eqn:E1; simpl;
    rewrite ?E1; [done|].
  destruct (truthy (get_opt decoded "id")) eqn:E2; simpl;
    rewrite ?E2; [done|].
  by destruct (truthy (get_opt decoded "user_id")) eqn:E3; simpl;
    rewrite ?E3.
Qed.

Lemma relay_cases call text up :
  EchoHttp.relay call text up =
    Forward call ::
    match up with
    | Responds _ status data => [Reply status data]
    | Silent => []
    | Unreachable _ _ => [Reply 502 (EchoHttp.unavailable text)]
    end.
Proof.
  unfold EchoHttp.relay, axios, in_time.
  destruct up as [after status data| |errno text']; simpl; [|done|done].
  by rewrite orb_true_r.
Qed.

(** The clients of echo.js set no [maxRedirects]: the answer they get is
    the backend's own when that is no redirect, and the end of the chain
    otherwise. *)
Lemma default_redirects (c : client) (b : backend) :
  maxRedirects c = None →
  (∀ up, b = Direct up → deliver c b = up)
  ∧ (∀ after status data next,
       b = Moved after status data next →
       300 <= status < 400 →
       deliver c b = follow (Nat.pred default_maxRedirects) after next).
Proof.
  intros Hmax. unfold deliver. rewrite Hmax. split.
  - intros up ->. by destruct up.
  - intros after status data next -> [Hlo Hhi]. simpl.
    rewrite (proj2 (Z.ltb_ge status 300) Hlo),
      (proj2 (Z.leb_gt 400 status) Hhi). simpl.
    pose proof default_maxRedirects_pos as Hpos.
    by destruct default_maxRedirects.
Qed.

(** X16. The routes of echo.js behind [authenticate] ([/api/schools], [/grades],
    [/results], [/payments]) on a token that verifies.  Without a user id
    the reply is 401 [INVALID_TOKEN_FORMAT] and the upstream is not called.
    With one, the request goes to the backend under [req.path], with the
    parsed query as [params] and that id as [x-user-id].  The answer that
    axios ends with is relayed, whatever its status: the backend's own
    answer, or, when that is a 3xx answer with a [Location] header, the
    answer at the end of the redirects (five at most).  A transport
    failure, one redirect too many included, is answered 502
    [SERVICE_UNAVAILABLE] with the text of that route. *)
Theorem echo_proxy_route text req h decoded b :
  Echo.public_route (path req) = false →
  headers req !! "authorization" = Some h →
  startsWith h "Bearer " = true →
  jwt_verify (bearer_token h) (JWT_SECRET cfg) = Return decoded →
  decoded ≠ VUndefined → decoded ≠ VNull →
  let up := deliver EchoHttp.proxy_client b in
  match resolve_id decoded ["userId"; "id"; "user_id"] with
  | Some v =>
      ∃ call,
        EchoHttp.proxy_route cfg text req up =
          Forward call ::
          match up with
          | Responds _ status data => [Reply status data]
          | Silent => []
          | Unreachable _ _ =>
              [Reply 502 (VObj [("success", VBool false);
                                ("error", VStr text);
                                ("code", VStr "SERVICE_UNAVAILABLE")])]
          end
        ∧ out_url call = PYTHON_BACKEND cfg +:+ path req
        ∧ out_method call = method req
        ∧ out_params call = query req
        ∧ out_headers call !! "x-user-id" = Some v
  | None =>
      EchoHttp.proxy_route cfg text req up =
        [Reply 401
           (VObj [("success", VBool false);
                  ("error",
                   VStr "Invalid token: missing user identification");
                  ("code", VStr "INVALID_TOKEN_FORMAT")])]
  end
  ∧ (∀ up', b = Direct up' → up = up')
  ∧ (∀ after status data next,
       b = Moved after status data next →
       300 <= status < 400 →
       up = follow (Nat.pred default_maxRedirects) after next).
Proof.
  intros Hp Hh Hb Hv Hu Hn up. split; [|by apply default_redirects].
  unfold EchoHttp.proxy_route.
  rewrite (echo_token_identity req h decoded Hp Hh Hb Hv Hu Hn).
  destruct (resolve_id decoded ["userId"; "id"; "user_id"]) as [v|]; [|done].
  simpl. eexists. rewrite relay_cases. split_and!; try reflexivity.
  simpl. rewrite lookup_insert_ne by done. by rewrite lookup_insert_eq.
Qed.

(** X17. A token that fails verification on the routes of echo.js: behind
    [authenticate] the reply is 401 with code [TOKEN_EXPIRED],
    [MALFORMED_TOKEN] or [INVALID_TOKEN] after the name of the error; the
    [/users] route answers 401 [INVALID_TOKEN] for every error, an expired
    token included.  The upstream is not called. *)
Theorem echo_failed_verification text req h e up :
  headers req !! "authorization" = Some h →
  startsWith h "Bearer " = true →
  jwt_verify (bearer_token h) (JWT_SECRET cfg) = Throw e →
  (Echo.public_route (path req) = false →
   EchoHttp.proxy_route cfg text req up =
     [Reply 401
        (VObj [("success", VBool false);
               ("error",
                VStr (if String.eqb (name e) "TokenExpiredError"
                      then "Token has expired"
                      else if String.eqb (name e) "JsonWebTokenError"
                      then "Malformed token" else "Invalid token"));
               ("code",
                VStr (if String.eqb (name e) "TokenExpiredError"
                      then "TOKEN_EXPIRED"
                      else if String.eqb (name e) "JsonWebTokenError"
                      then "MALFORMED_TOKEN" else "INVALID_TOKEN"))])])
  ∧ (path req ≠ "/users/login" → path req ≠ "/users/register" →
     EchoHttp.users_route cfg req up =
       EchoHttp.Handled
         [Reply 401 (VObj [("success", VBool false);
                           ("error", VStr "Invalid token");
                           ("code", VStr "INVALID_TOKEN")])]).
Proof.
  intros Hh Hb Hv. unfold bearer_token in Hv. split.
  - intros Hp. unfold EchoHttp.proxy_route, Echo.authenticate.
    rewrite Hp, Hh, Hb, (bearer_not_empty h Hb), Hv. simpl.
    destruct (String.eqb (name e) "TokenExpiredError"); [done|].
    by destruct (String.eqb (name e) "JsonWebTokenError").
  - intros Hl Hr. unfold EchoHttp.users_route.
    rewrite (proj2 (String.eqb_neq _ _) Hl), (proj2 (String.eqb_neq _ _) Hr).
    by rewrite Hh, Hb, (bearer_not_empty h Hb), Hv.
Qed.

(** X18. The [/users] route of echo.js.  A request whose [req.path] is
    [/users/login] or [/users/register] is handed to [next()] and the
    upstream is not called.  Every other request needs a Bearer header (401
    [NO_TOKEN] without); with a token that verifies, with or without a user
    id, the request goes to the backend under [req.path], and the
    [x-user-id] header that reaches the backend is the client's own.  The
    answer that axios ends with is relayed: the backend's own, or the answer
    at the end of the redirects that axios follows. *)
Theorem users_route_outcomes req h decoded b :
  let up := deliver EchoHttp.proxy_client b in
  (path req = "/users/login" ∨ path req = "/users/register" →
   EchoHttp.users_route cfg req up = EchoHttp.Falls_through)
  ∧ (path req ≠ "/users/login" → path req ≠ "/users/register" →
     (has_bearer req = false →
      EchoHttp.users_route cfg req up =
        EchoHttp.Handled
          [Reply 401
             (VObj [("success", VBool false);
                    ("error", VStr "Access denied. No token provided.");
                    ("code", VStr "NO_TOKEN")])])
     ∧ (headers req !! "authorization" = Some h →
        startsWith h "Bearer " = true →
        jwt_verify (bearer_token h) (JWT_SECRET cfg) = Return decoded →
        decoded ≠ VUndefined → decoded ≠ VNull →
        ∃ call,
          EchoHttp.users_route cfg req up =
            EchoHttp.Handled
              (Forward call ::
               match up with
               | Responds _ status data => [Reply status data]
               | Silent => []
               | Unreachable _ _ =>
                   [Reply 502
                      (VObj [("success", VBool false);
                             ("error", VStr "Python service unavailable");
                             ("code", VStr "SERVICE_UNAVAILABLE")])]
               end)
          ∧ out_url call = PYTHON_BACKEND cfg +:+ path req
          ∧ out_headers call !! "x-user-id"
            = VStr <$> headers req !! "x-user-id"))
  ∧ (∀ up', b = Direct up' → up = up')
  ∧ (∀ after status data next,
       b = Moved after status data next →
       300 <= status < 400 →
       up = follow (Nat.pred default_maxRedirects) after next).
Proof.
  intros up. split_and!; try by apply default_redirects.
  - unfold EchoHttp.users_route. by intros [-> | ->].
  - intros Hl Hr. unfold EchoHttp.users_route.
    rewrite (proj2 (String.eqb_neq _ _) Hl), (proj2 (String.eqb_neq _ _) Hr).
    split.
    + unfold has_bearer.
      destruct (headers req !! "authorization") as [a|]; [|done].
      intros ->. simpl. by rewrite orb_true_r.
    + intros Hh Hb Hv Hu Hn. unfold bearer_token in Hv.
      rewrite Hh, Hb, (bearer_not_empty h Hb), Hv. simpl.
      rewrite !prop_defined by done. simpl.
      eexists. rewrite relay_cases. split_and!; try reflexivity.
      simpl. rewrite !lookup_insert_ne by done. by rewrite lookup_fmap.
Qed.

(** X19. [/auth/login] and [/auth/register] of echo.js post the body, and
    nothing else of the request, to [/users/login] and [/users/register].
    The answer that axios ends with is the backend's own, or, when that is a
    3xx answer with a [Location] header, the answer at the end of the
    redirects (five at most).  When it is a 2xx answer it is relayed.  Any
    other answer is relayed with its status, and with its body unless that
    is empty ([null], [false], [0], the empty string): then the body is
    [{error: "Login failed"}] or [{error: "Registration failed"}].  A
    transport failure, one redirect too many included, is answered 500 with
    that same body. *)
Theorem auth_forward_outcomes target failure req b :
  let up := deliver EchoHttp.post_client b in
  EchoHttp.auth_forward cfg target failure req up =
    Forward (Outbound "POST" (PYTHON_BACKEND cfg +:+ target) (body req)
               VUndefined ∅) ::
    match up with
    | Responds _ status data =>
        if (status =? 0) || default_validateStatus status
        then [Reply status data]
        else [Reply status
                (if truthy data then data
                 else VObj [("error", VStr failure)])]
    | Silent => []
    | Unreachable _ _ => [Reply 500 (VObj [("error", VStr failure)])]
    end
  ∧ (∀ up', b = Direct up' → up = up')
  ∧ (∀ after status data next,
       b = Moved after status data next →
       300 <= status < 400 →
       up = follow (Nat.pred default_maxRedirects) after next).
Proof.
  intros up. split; [|by apply default_redirects].
  generalize up. clear up. intros up.
  unfold EchoHttp.auth_forward, axios, in_time.
  destruct up as [after status data| |errno text]; simpl; [|done|done].
  rewrite ?orb_true_r.
  destruct (status =? 0) eqn:E0; simpl; [done|].
  destruct (default_validateStatus status); simpl; [done|].
  unfold or. simpl. by rewrite E0.
Qed.
End EchoRoutes.

(** ** The external services of echo.js *)

Section Services.
Import JS Platform Checks.
Context `{Libraries} (cfg : config).

Lemma echo_answers_401 req status json :
  Echo.authenticate cfg req = Answer status json → status = 401.
Proof.
  unfold Echo.authenticate, Echo.no_token.
  destruct (Echo.public_route (path req)); [done|].
  destruct (headers req !! "authorization") as [h|];
    [|intros E; by inversion E].
  destruct (negb (truthy (VStr h)) || negb (startsWith h "Bearer "));
    [intros E; by inversion E|].
  destruct (jwt_verify _ _) as [decoded|e]; simpl.
  2: { destruct (String.eqb (name e) "TokenExpiredError");
         [|destruct (String.eqb (name e) "JsonWebTokenError")];
         intros E; by inversion E. }
  unfold prop.
  destruct (get decoded "userId"); simpl; [|intros E; by inversion E].
  destruct (get decoded "id"); simpl; [|intros E; by inversion E].
  destruct (get decoded "user_id"); simpl; [|intros E; by inversion E].
  destruct (negb _ && negb _ && negb _); simpl; [intros E; by inversion E|].
  destruct (get decoded "email"); simpl; [|intros E; by inversion E].
  destruct (get decoded "role"); simpl; [|intros E; by inversion E].
  done.
Qed.

(** X20. The mail and text-message routes of echo.js call their provider only
    for an authenticated request and only when the provider's credentials
    are configured; a request gets one call and one reply at most.  When the
    provider is called and does not accept the call (a transport failure or
    a non-2xx status) the reply is 500 with the fixed body of the route, and
    the reply is 200 exactly when the provider accepted. *)
Theorem provider_calls_guarded svc req up mail text :
  EchoHttp.email_send cfg svc req up = Return mail →
  EchoHttp.sms_send cfg svc req up = Return text →
  ((calls mail = [] ∨
    (∃ c, calls mail = [c])
    ∧ truthy (EchoHttp.setting (EchoHttp.BREVO_API_KEY svc)) = true
    ∧ (∃ user, Echo.authenticate cfg req = Next user))
   ∧ (calls text = [] ∨
      (∃ c, calls text = [c])
      ∧ truthy (EchoHttp.setting (EchoHttp.TWILIO_ACCOUNT_SID svc)) = true
      ∧ truthy (EchoHttp.setting (EchoHttp.TWILIO_AUTH_TOKEN svc)) = true
      ∧ (∃ user, Echo.authenticate cfg req = Next user)))
  ∧ ((length (responses mail) <= 1)%nat ∧ (length (responses text) <= 1)%nat)
  ∧ (accepted up = false → up ≠ Silent →
     (calls mail ≠ [] → responses mail = [(500, EchoHttp.email_failed)])
     ∧ (calls text ≠ [] → responses text = [(500, EchoHttp.sms_failed)]))
  ∧ (∀ json, In (200, json) (responses mail) ∨ In (200, json) (responses text)
             → accepted up = true).
Proof.
  unfold EchoHttp.email_send, EchoHttp.sms_send.
  destruct (Echo.authenticate cfg req) as [user|status json] eqn:Hauth.
  - unfold prop.
    destruct (get (body req) "to") as [to|]; simpl; [|done].
    destruct (get (body req) "subject") as [subject|]; simpl; [|done].
    destruct (get (body req) "htmlContent") as [html|]; simpl; [|done].
    destruct (get (body req) "message") as [message|]; simpl; [|done].
    destruct (truthy (EchoHttp.setting (EchoHttp.BREVO_API_KEY svc)));
      destruct (truthy (EchoHttp.setting (EchoHttp.TWILIO_ACCOUNT_SID svc)));
      destruct (truthy (EchoHttp.setting (EchoHttp.TWILIO_AUTH_TOKEN svc)));
      simpl; intros [= <-] [= <-];
      unfold axios, in_time, accepted;
      (destruct up as [after status data| |errno err]; simpl;
       [destruct ((status =? 0) || default_validateStatus status) eqn:Hs;
        simpl;
        [destruct (get data "messageId"); destruct (get data "sid"); simpl|]
       | |]);
      (split_and!;
       [first [by left | right; split_and!; eauto]
       |first [by left | right; split_and!; eauto]
       |lia|lia
       |intros; split; intros; congruence
       |intros ? [Hin|Hin]; simpl in Hin; repeat destruct Hin as [Hin|Hin];
        try done; congruence]).
  - simpl. intros [= <-] [= <-].
    apply echo_answers_401 in Hauth as ->. simpl.
    split_and!; try (by left); try lia.
    + intros _ _. by split.
    + intros ? [[Hin|[]]|[Hin|[]]]; congruence.
Qed.

Lemma chars_app (a b : string) : chars (a +:+ b) = chars a ++ chars b.
Proof. induction a as [|c a IH]; simpl; [done | by rewrite <- IH]. Qed.

Lemma pretty_N_go_plain (x : N) (s : string) :
  Forall (fun c => plain c = true) (chars s) →
  Forall (fun c => plain c = true) (chars (pretty_N_go x s)).
Proof.
  revert s. induction (N.lt_wf_0 x) as [x _ IH]. intros s Hs.
  destruct (decide (0 < x)%N) as [Hpos|Hzero].
  - rewrite pretty_N_go_step by done. apply IH.
    + apply N.div_lt; lia.
    + simpl. constructor; [|done].
      unfold pretty_N_char. by repeat case_match.
  - replace x with 0%N by lia. by rewrite pretty_N_go_0.
Qed.

Lemma pretty_Z_plain (z : Z) :
  Forall (fun c => plain c = true) (chars (pretty z)).
Proof.
  assert (∀ p : positive,
            Forall (fun c => plain c = true) (chars (pretty p))) as Hpos.
  { intros p. unfold pretty, pretty_positive, pretty, pretty_N.
    case_decide; [done|]. apply pretty_N_go_plain. constructor. }
  destruct z as [|p|p]; unfold pretty, pretty_Z.
  - by repeat constructor.
  - apply Hpos.
  - rewrite chars_app. apply Forall_app. split; [by repeat constructor|].
    apply Hpos.
Qed.

Lemma sanitize_plain (name : string) :
  Forall (fun c => plain c = true) (chars (EchoHttp.sanitize name)).
Proof.
  induction name as [|c name IH]; simpl; constructor; [|done].
  unfold plain. destruct (EchoHttp.kept c) eqn:Hk; simpl; by rewrite ?Hk.
Qed.

(** X21. The name under which an uploaded file is stored.  Sanitising keeps the
    length of the original name and leaves ASCII letters, digits, dots and
    hyphens alone; every other character becomes an underscore.  So the
    result has no slash, sanitising twice changes nothing more, and a name
    made of kept characters only is stored as it is. *)
Theorem sanitize_properties (name : string) :
  String.length (EchoHttp.sanitize name) = String.length name
  ∧ Forall (fun c => plain c = true) (chars (EchoHttp.sanitize name))
  ∧ ¬ In "/"%char (chars (EchoHttp.sanitize name))
  ∧ EchoHttp.sanitize (EchoHttp.sanitize name) = EchoHttp.sanitize name
  ∧ (Forall (fun c => EchoHttp.kept c = true) (chars name) →
     EchoHttp.sanitize name = name).
Proof.
  split_and!.
  - induction name as [|c name IH]; simpl; [done | by rewrite IH].
  - apply sanitize_plain.
  - pose proof (sanitize_plain name) as Hplain.
    intros Hin%list_elem_of_In.
    rewrite Forall_forall in Hplain. by apply Hplain in Hin.
  - induction name as [|c name IH]; simpl; [done|].
    rewrite IH. destruct (EchoHttp.kept c) eqn:Hk; simpl; by rewrite ?Hk.
  - induction name as [|c name IH]; simpl; [done|].
    intros [Hc Hrest]%Forall_cons. by rewrite Hc, IH.
Qed.

(** X22. An upload of echo.js by an authenticated user.  Without a file the reply
    is 400 [NO_FILE] and nothing is stored.  With one, the object is put
    under [uploads/] followed by a name made of the clock reading, a
    hyphen and the sanitised original name: letters, digits, dots, hyphens
    and underscores only.  The address in the reply is the address of that
    object, and a failure of the store is answered 500 [UPLOAD_FAILED]. *)
Theorem upload_outcomes svc req user upfile now s3 :
  Echo.authenticate cfg req = Next user →
  user ≠ VUndefined → user ≠ VNull →
  let fileName :=
    pretty now +:+ "-" +:+ EchoHttp.sanitize (EchoHttp.originalname upfile) in
  Forall (fun c => plain c = true) (chars fileName)
  ∧ EchoHttp.upload cfg svc req None now s3 =
      [EchoHttp.UploadReply 400
         (VObj [("success", VBool false);
                ("error", VStr "No file uploaded");
                ("code", VStr "NO_FILE")])]
  ∧ EchoHttp.upload cfg svc req (Some upfile) now s3 =
      EchoHttp.PutObject (EchoHttp.S3_BUCKET svc) ("uploads/" +:+ fileName)
        (EchoHttp.buffer upfile) (EchoHttp.mimetype upfile)
        [("uploadedBy", or (get_opt user "userId") (VStr "unknown"));
         ("originalName", VStr (EchoHttp.originalname upfile))] ::
      match s3 with
      | Settled (Return _) =>
          [EchoHttp.UploadReply 200
             (VObj [("success", VBool true);
                    ("fileName", VStr fileName);
                    ("fileUrl",
                     VStr ("https://" +:+ EchoHttp.S3_BUCKET svc
                           +:+ ".s3.amazonaws.com/uploads/" +:+ fileName));
                    ("size", VNum (EchoHttp.size upfile));
                    ("type", VStr (EchoHttp.mimetype upfile));
                    ("message", VStr "File uploaded successfully")])]
      | Settled (Throw _) =>
          [EchoHttp.UploadReply 500 EchoHttp.upload_failed]
      | Pending => []
      end.
Proof.
  intros Hauth Hu Hn fileName. split_and!.
  - subst fileName. rewrite !chars_app. rewrite !Forall_app. split_and!.
    + apply pretty_Z_plain.
    + by repeat constructor.
    + apply sanitize_plain.
  - unfold EchoHttp.upload. by rewrite Hauth.
  - unfold EchoHttp.upload. rewrite Hauth.
    rewrite prop_defined by done. simpl.
    by destruct s3 as [[[]|e]|].
Qed.
End Services.

(** ** The properties above on concrete inputs *)

Lemma failed_verification_rejected_witness :
  GatewayV11.createProxyHandler (H:=Fixture.libraries) Fixture.cfg true
    (Fixture.get_request "/api/widgets" (Some "Bearer token-expired"))
    Platform.Silent
  = [Platform.Reply 401
       (JS.VObj [("success", JS.VBool false);
                 ("error", JS.VStr "Token expired. Please login again.");
                 ("code", JS.VStr "TOKEN_EXPIRED")])].
Proof.
  destruct (@failed_verification_rejected Fixture.libraries Fixture.cfg
              (Fixture.get_request "/api/widgets"
                 (Some "Bearer token-expired"))
              "Bearer token-expired" Fixture.expired 0 0 Platform.Silent)
    as [H11 _]; [reflexivity | reflexivity | reflexivity |].
  apply H11. reflexivity.
Defined.

Lemma identity_headers_from_token_witness :
  let req := Fixture.get_request "/schools/12"
               (Some "Bearer token-user_id-7-id-9") in
  Platform.sent_header "x-user-id"
    (GatewayV11.createProxyHandler (H:=Fixture.libraries) Fixture.cfg true req
       Platform.Silent) = [Some (JS.VNum 9)]
  ∧ Platform.sent_header "x-user-id"
      (GatewayV14.createProxyHandler (H:=Fixture.libraries) Fixture.cfg true
         req 0 0 Platform.Silent) = [Some (JS.VNum 7)].
Proof.
  intros req.
  destruct (@identity_headers_from_token Fixture.libraries Fixture.cfg req
              "Bearer token-user_id-7-id-9"
              (JS.VObj [("id", JS.VNum 9); ("user_id", JS.VNum 7)])
              0 0 Platform.Silent)
    as [H11 H14]; [reflexivity | reflexivity | reflexivity | done | done |].
  split.
  - exact (proj1 (H11 eq_refl)).
  - exact (proj1 (H14 eq_refl)).
Defined.

Lemma client_headers_forwarded_witness :
  Platform.out_headers
    (GatewayV11.proxy_call (H:=Fixture.libraries) Fixture.cfg
       Samples.spoofing_request Samples.user_5) !! "accept"
  = Some (JS.VStr "application/json").
Proof.
  destruct (@client_headers_forwarded Fixture.libraries Fixture.cfg
              Samples.spoofing_request Samples.user_5 0 "accept")
    as [H11 _].
  destruct H11 as [-> _]; [|reflexivity].
  rewrite !not_elem_of_cons. split_and!; try done. apply not_elem_of_nil.
Defined.

Lemma public_path_needs_no_token_witness :
  let req := Fixture.get_request "/healthz-internal/metrics" None in
  GatewayV14.createProxyHandler (H:=Fixture.libraries) Fixture.cfg true req
    0 0 Platform.Silent
  = GatewayV14.createProxyHandler (H:=Fixture.libraries) Fixture.cfg false req
      0 0 Platform.Silent.
Proof.
  intros req.
  destruct (@public_path_needs_no_token Fixture.libraries Fixture.cfg req 0 0
              Platform.Silent) as (_ & _ & _ & Hhealth).
  apply Hhealth. reflexivity.
Defined.

Lemma unauthenticated_socket_refused_witness :
  ∃ reason,
    Revisions.connect (H:=Fixture.libraries) Fixture.cfg Revisions.echo 3%nat
      (JS.VStr "token-expired") "t" [("5", 1%nat)]
    = ([("5", 1%nat)], [Platform.Close 3%nat 1008 reason],
       Platform.no_listeners).
Proof.
  apply (@unauthenticated_socket_refused Fixture.libraries Fixture.cfg).
  right; left. exists Fixture.expired. reflexivity.
Defined.

Lemma malformed_frame_answered_witness :
  Echo.message_listener (H:=Fixture.libraries) 1%nat (JS.VNum 5) "{oops" "t"
    [("5", 1%nat)]
  = [Platform.Send 1%nat
       (JS.VObj [("type", JS.VStr "error");
                 ("error", JS.VStr "Invalid message format")])].
Proof.
  destruct (@malformed_frame_answered Fixture.libraries 1%nat (JS.VNum 5)
              "{oops" "t" [("5", 1%nat)]) as (_ & _ & He).
  - left. exists Fixture.syntax_error. reflexivity.
  - exact He.
Defined.

Lemma frames_without_effect_witness :
  GatewayV11.message_listener (H:=Fixture.libraries) 1%nat (JS.VNum 5)
    Fixture.private_to_5 "t" [("5", 1%nat)] = [].
Proof.
  destruct (@frames_without_effect Fixture.libraries 1%nat (JS.VNum 5)
              Fixture.private_to_5 "t" [("5", 1%nat)]
              (JS.VObj [("type", JS.VStr "private");
                        ("receiverId", JS.VNum 5);
                        ("content", JS.VStr "hello")])
              (JS.VStr "private") (JS.VNum 5))
    as [Hgw _]; [reflexivity | reflexivity | reflexivity |].
  apply Hgw. reflexivity.
Defined.

Lemma registry_changes_one_key_witness :
  let first :=
    Echo.connection (H:=Fixture.libraries) Fixture.cfg 1%nat
      (JS.VStr "token-userId-5") "t0" [] in
  (Platform.emit_close first.2 "t2" first.1.1).1 = first.1.1
  ∨ ∃ key,
      JsMap.get key (Platform.emit_close first.2 "t2" first.1.1).1 = None
      ∧ ∀ k, k ≠ key →
             JsMap.get k (Platform.emit_close first.2 "t2" first.1.1).1
             = JsMap.get k first.1.1.
Proof.
  intros first.
  assert (Platform.run
            (Revisions.connect (H:=Fixture.libraries) Fixture.cfg
               Revisions.echo)
            first.1.1 [first.2]) as Hrun.
  { apply (Platform.run_connect
             (Revisions.connect (H:=Fixture.libraries) Fixture.cfg
                Revisions.echo) [] [] 1%nat
             (JS.VStr "token-userId-5") "t0").
    apply Platform.run_start. }
  destruct (@registry_changes_one_key Fixture.libraries Fixture.cfg
              Revisions.echo first.1.1 [first.2] 2%nat
              (JS.VStr "token-user_id-7-id-9") "t1" first.2 "t2" Hrun)
    as [_ Hclose]; [by left|].
  exact Hclose.
Defined.

Lemma open_then_close_witness :
  let opened :=
    Revisions.connect (H:=Fixture.libraries) Fixture.cfg Revisions.gateway_1_4
      2%nat (JS.VStr "token-user_id-7-id-9") "t1" [("7", 1%nat); ("9", 3%nat)]
  in
  opened.1.1 = [("7", 2%nat); ("9", 3%nat)]
  ∧ (Platform.emit_close opened.2 "t2" opened.1.1).1 = [("9", 3%nat)].
Proof.
  intros opened.
  destruct (@open_then_close Fixture.libraries Fixture.cfg
              Revisions.gateway_1_4 2%nat (JS.VStr "token-user_id-7-id-9")
              "t1" "t2" [("7", 1%nat); ("9", 3%nat)]
              (JS.VObj [("id", JS.VNum 9); ("user_id", JS.VNum 7)])
              (JS.VNum 7) "7") as (Hclosed & _);
    [reflexivity | reflexivity | reflexivity | reflexivity |].
  split; [reflexivity|].
  etransitivity; [exact Hclosed | reflexivity].
Defined.

Lemma echo_presence_witness :
  ∃ key,
    JsMap.get key
      (Echo.connection (H:=Fixture.libraries) Fixture.cfg 2%nat
         (JS.VStr "token-userId-5") "t1" [("9", 1%nat)]).1.1
    = Some 2%nat.
Proof.
  destruct (@echo_presence Fixture.libraries Fixture.cfg 2%nat
              (JS.VStr "token-userId-5") "t1" "t2" [("9", 1%nat)]
              [("9", 1%nat); ("5", 2%nat)])
    as (key & Hget & _); [reflexivity | |].
  - unfold JsMap.wf. simpl. repeat constructor; set_solver.
  - by exists key.
Defined.

Lemma startup_configuration_witness :
  GatewayV11.load {[ "JWT_SECRET" := "s3cret" ]}
  = Platform.Listening
      (Platform.Config (JS.VNum 3000) "https://echo-backend.up.railway.app"
         "s3cret").
Proof.
  generalize (startup_configuration {[ "JWT_SECRET" := "s3cret" ]} "s3cret"
                eq_refl).
  destruct (decide ("s3cret" = "")) as [E|_]; [discriminate E|].
  intros W. exact (proj1 W).
Defined.

Lemma echo_proxy_route_witness :
  ∃ call,
    EchoHttp.grades (H:=Fixture.libraries) Fixture.cfg Samples.grades_request
      (Platform.deliver (H:=Fixture.libraries) EchoHttp.proxy_client
         (Platform.Moved 10 301 (JS.VStr "")
            (Platform.Direct (Platform.Responds 40 200 Fixture.ok_body))))
    = [Platform.Forward call; Platform.Reply 200 Fixture.ok_body]
    ∧ Platform.out_url call = "https://echo-backend.up.railway.app/grades/7".
Proof.
  destruct (@echo_proxy_route Fixture.libraries Fixture.cfg
              "Grades service unavailable" Samples.grades_request
              "Bearer token-userId-5" (JS.VObj [("userId", JS.VNum 5)])
              (Platform.Moved 10 301 (JS.VStr "")
                 (Platform.Direct (Platform.Responds 40 200 Fixture.ok_body))))
    as ((call & Htrace & Hurl & _) & _);
    [reflexivity | reflexivity | reflexivity | reflexivity | done | done |].
  exists call. split; [exact Htrace | exact Hurl].
Defined.

Lemma echo_failed_verification_witness :
  EchoHttp.users_route (H:=Fixture.libraries) Fixture.cfg
    (Fixture.get_request "/users/42" (Some "Bearer token-expired"))
    Platform.Silent
  = EchoHttp.Handled
      [Platform.Reply 401
         (JS.VObj [("success", JS.VBool false);
                   ("error", JS.VStr "Invalid token");
                   ("code", JS.VStr "INVALID_TOKEN")])].
Proof.
  destruct (@echo_failed_verification Fixture.libraries Fixture.cfg
              "Python service unavailable"
              (Fixture.get_request "/users/42" (Some "Bearer token-expired"))
              "Bearer token-expired" Fixture.expired Platform.Silent)
    as [_ Husers]; [reflexivity | reflexivity | reflexivity |].
  apply Husers; discriminate.
Defined.

Lemma users_route_outcomes_witness :
  EchoHttp.users_route (H:=Fixture.libraries) Fixture.cfg
    (Fixture.get_request "/users/login" None)
    (Platform.deliver (H:=Fixture.libraries) EchoHttp.proxy_client (Platform.Direct Platform.Silent))
  = EchoHttp.Falls_through.
Proof.
  destruct (@users_route_outcomes Fixture.libraries Fixture.cfg
              (Fixture.get_request "/users/login" None) "" JS.VNull
              (Platform.Direct Platform.Silent)) as [Hnext _].
  apply Hnext. left. reflexivity.
Defined.

Lemma auth_forward_outcomes_witness :
  let moved :=
    Platform.Moved 10 307 (JS.VStr "")
      (Platform.Direct (Platform.Responds 30 401 JS.VNull)) in
  Platform.deliver (H:=Fixture.libraries) EchoHttp.post_client moved
  = Platform.Responds 40 401 JS.VNull
  ∧ Platform.replies
      (EchoHttp.auth_login Fixture.cfg Samples.login_request
         (Platform.deliver (H:=Fixture.libraries) EchoHttp.post_client moved))
    = [(401, JS.VObj [("error", JS.VStr "Login failed")])].
Proof.
  intros moved.
  destruct (@auth_forward_outcomes Fixture.libraries Fixture.cfg
              "/users/login" "Login failed" Samples.login_request moved)
    as (Htrace & _ & Hmoved).
  split.
  - etransitivity; [apply (Hmoved 10 307 (JS.VStr "") _ eq_refl); lia|].
    reflexivity.
  - unfold EchoHttp.auth_login. rewrite Htrace. reflexivity.
Defined.

Lemma provider_calls_guarded_witness :
  Checks.responses
    [EchoHttp.Call
       (EchoHttp.ServiceCall "https://api.brevo.com/v3/smtp/email"
          (JS.VObj [("sender",
                     JS.VObj [("email", JS.VStr "noreply@echo.example.com")]);
                    ("to",
                     JS.VArr [JS.VObj [("email", JS.VStr "ann@example.org")]]);
                    ("subject", JS.VStr "Term report");
                    ("htmlContent", JS.VStr "<p>Attached.</p>")])
          [("api-key", JS.VStr "brevo-key");
           ("Content-Type", JS.VStr "application/json")] None);
     EchoHttp.Respond 500 EchoHttp.email_failed]
  = [(500, EchoHttp.email_failed)].
Proof.
  destruct (@provider_calls_guarded Fixture.libraries Fixture.cfg
              Samples.all_services Samples.mail_request
              (Platform.Unreachable "ECONNRESET" "socket hang up")
              _ _ eq_refl eq_refl) as (_ & _ & Hfail & _).
  destruct Hfail as [Hmail _]; [reflexivity | discriminate |].
  apply Hmail. discriminate.
Defined.

Lemma sanitize_properties_witness :
  EchoHttp.sanitize "report-2024.v2.PDF" = "report-2024.v2.PDF".
Proof.
  destruct (sanitize_properties "report-2024.v2.PDF") as (_ & _ & _ & _ & Hid).
  apply Hid. simpl. repeat constructor.
Defined.

Lemma upload_outcomes_witness :
  EchoHttp.upload (H:=Fixture.libraries) Fixture.cfg Samples.all_services
    (Fixture.get_request "/upload" (Some "Bearer token-userId-5"))
    (Some Samples.report) 1700000000000 (JS.Settled (JS.Throw JS.TypeError))
  = [EchoHttp.PutObject "echo-uploads"
       "uploads/1700000000000-term_report__final_.pdf" (JS.VStr "%PDF")
       "application/pdf"
       [("uploadedBy", JS.VNum 5);
        ("originalName", JS.VStr "term report (final).pdf")];
     EchoHttp.UploadReply 500 EchoHttp.upload_failed].
Proof.
  destruct (@upload_outcomes Fixture.libraries Fixture.cfg
              Samples.all_services
              (Fixture.get_request "/upload" (Some "Bearer token-userId-5"))
              Samples.user_5 Samples.report 1700000000000
              (JS.Settled (JS.Throw JS.TypeError)))
    as (_ & _ & Hput); [reflexivity | done | done |].
  rewrite Hput. reflexivity.
Defined.
